(** * clawio/data: the authenticated blob gateway, embedded in Rocq

    The development follows [service/service.go] (the token header/query
    variant of the service facade) and its sibling variant that resolves
    the route prefix from [BaseURL].  Handlers are programs of a small
    state-and-trace monad: the state is the response recorder and the
    request-scoped context, the trace is the list of observable steps. *)

From Stdlib Require Import ZArith Lia.
From Stdlib Require Import Strings.String Strings.Ascii.
From stdpp Require Import base option list gmap strings.

Local Open Scope string_scope.
Local Open Scope list_scope.
Local Open Scope Z_scope.

(* ===================================================================== *)
(** ** Data model *)
(* ===================================================================== *)

#[local] Set Warnings "-register-all".

Abbreviation byte := Byte.byte.

(** Go converts a string to [[]byte] without changing its octets. *)
Definition bytes_of (s : string) : list byte := list_byte_of_string s.

(** [entities.User]: the authenticated principal. *)
Record User := mkUser { Username : string }.

(** Error kinds the gateway tells apart: [codes.NotFound] and the rest. *)
Inductive ErrorKind := NotFound | Other.

(** A Go [error] value: its kind and the message of the underlying cause. *)
Record error := mkErr { kind : ErrorKind; cause : string }.

(** [codes.NewErr(codes.NotFound, msg)] *)
Definition codes_NewErr_NotFound (msg : string) : error := mkErr NotFound msg.
(** [errors.New(msg)] *)
Definition errors_New (msg : string) : error := mkErr Other msg.

(** An [io.Reader] as the sequence of outcomes of its successive [Read]
    calls: a chunk and the rest, end of stream, or a failure. *)
Inductive Reader :=
| EOF
| Chunk (c : list byte) (rest : Reader)
| Broken (e : error).

(** [strings.NewReader(s)]: one chunk, then end of stream; for the empty
    string the first read already meets the end of stream. *)
Definition strings_NewReader (s : string) : Reader :=
  match s with
  | EmptyString => EOF
  | _ => Chunk (bytes_of s) EOF
  end.

(** [errorReader] of the download tests: every [Read] fails. *)
Definition errorReader : Reader := Broken (errors_New "test error").

(** The bytes a reader delivers before it ends or breaks. *)
Fixpoint reader_bytes (rd : Reader) : list byte :=
  match rd with
  | EOF => []
  | Chunk c rest => c ++ reader_bytes rest
  | Broken _ => []
  end.

(** A reader that ends in end-of-stream, never in a failure. *)
Fixpoint reader_clean (rd : Reader) : bool :=
  match rd with
  | EOF => true
  | Chunk _ rest => reader_clean rest
  | Broken _ => false
  end.

(** [http.Request], reduced to what the service reads: [Header] and the
    parsed [URL.Query()] are [map[string][]string]; [Vars] are the route
    variables of [mux.Vars]. *)
Record Request := mkRequest {
  Method : string;
  Header : gmap string (list string);
  Query : gmap string (list string);
  Vars : gmap string string;
  ContentLength : Z;
  Body : list byte
}.

(** [httptest.ResponseRecorder] *)
Record ResponseRecorder := mkRecorder {
  Code : Z;
  wroteHeader : bool;
  RespBody : list byte
}.

(** [httptest.NewRecorder()] *)
Definition NewRecorder : ResponseRecorder := mkRecorder 200 false [].

(** What a handler can change: the response writer [w] and the
    request-scoped key-value store of [gorilla/context]. *)
Record Store := mkStore {
  rec : ResponseRecorder;
  ctx : gmap string User
}.

Definition fresh : Store := mkStore NewRecorder ∅.

Inductive ReadOutcome := ReadChunk (n : nat) | ReadEOF | ReadFailed.

(** Observable steps of a request.  The steps of a handler called by the
    authentication guard are kept together inside one [EvHandler] node.
    [EvPanic] is a Go panic: it is the last step of the handler that raises
    it, and it unwinds through the callers of that handler. *)
Inductive Event :=
| EvVerify (token : string)
| EvContextSet (key : string) (u : User)
| EvHandler (inner : list Event)
| EvDownloadBLOB (u : User) (path : string)
| EvUploadBLOB (u : User) (path : string) (data : list byte)
| EvRead (o : ReadOutcome)
| EvBodyRead (n : nat)
| EvWriteHeader (code : Z)
| EvWrite (data : list byte)
| EvMetric (route : string)
| EvPanic.

(* ===================================================================== *)
(** ** The handler monad *)
(* ===================================================================== *)

Definition M (A : Type) : Type := Store -> A * Store * list Event.

Definition ret {A} (a : A) : M A := fun s => (a, s, []).

Definition bind {A B} (m : M A) (k : A -> M B) : M B :=
  fun s =>
    let '(a, s1, t1) := m s in
    let '(b, s2, t2) := k a s1 in
    (b, s2, t1 ++ t2).

Notation "x <- m ;; k" := (bind m (fun x => k))
  (at level 100, m at next level, right associativity).
Notation "m ;; k" := (bind m (fun _ => k))
  (at level 100, right associativity).

Definition emit (e : Event) : M unit := fun s => (tt, s, [e]).

Definition store_of {A} (r : A * Store * list Event) : Store := snd (fst r).
Definition trace_of {A} (r : A * Store * list Event) : list Event := snd r.
Definition status_of {A} (r : A * Store * list Event) : Z := Code (rec (store_of r)).
Definition body_of {A} (r : A * Store * list Event) : list byte :=
  RespBody (rec (store_of r)).

(** [http.HandlerFunc]: [func(w http.ResponseWriter, r *http.Request)]. *)
Definition HandlerFunc : Type := Request -> M unit.

(* ===================================================================== *)
(** ** net/http, net/url and gorilla primitives *)
(* ===================================================================== *)

Definition StatusOK := 200.
Definition StatusUnauthorized := 401.
Definition StatusNotFound := 404.
Definition StatusRequestEntityTooLarge := 413.
Definition StatusInternalServerError := 500.

(** [http.StatusText] on the codes the service uses. *)
Definition StatusText (code : Z) : string :=
  if code =? 200 then "OK"
  else if code =? 401 then "Unauthorized"
  else if code =? 404 then "Not Found"
  else if code =? 413 then "Request Entity Too Large"
  else if code =? 500 then "Internal Server Error"
  else "".

(** [ResponseRecorder.WriteHeader]: only the first call sets the code. *)
Definition WriteHeader (code : Z) : M unit := fun s =>
  let w := rec s in
  let w' := if wroteHeader w then w else mkRecorder code true (RespBody w) in
  (tt, mkStore w' (ctx s), [EvWriteHeader code]).

(** [ResponseRecorder.Write]: commits status 200 when no header was
    written yet, then appends to the body. *)
Definition Write (data : list byte) : M unit := fun s =>
  let w := rec s in
  if wroteHeader w then
    (tt, mkStore (mkRecorder (Code w) true (RespBody w ++ data)) (ctx s),
     [EvWrite data])
  else
    (tt, mkStore (mkRecorder StatusOK true (RespBody w ++ data)) (ctx s),
     [EvWriteHeader StatusOK; EvWrite data]).

(** [http.Error(w, msg, code)]: [WriteHeader(code)], then the message and a
    newline ([fmt.Fprintln]).  Response headers are not modelled. *)
Definition http_Error (msg : string) (code : Z) : M unit :=
  WriteHeader code ;; Write (bytes_of (msg +:+ String "010"%char "")).

Definition is_lower (c : ascii) : bool :=
  (97 <=? nat_of_ascii c)%nat && (nat_of_ascii c <=? 122)%nat.
Definition is_upper (c : ascii) : bool :=
  (65 <=? nat_of_ascii c)%nat && (nat_of_ascii c <=? 90)%nat.

(** [textproto.CanonicalMIMEHeaderKey] on valid header names: the first
    letter and every letter after a hyphen in upper case, the others in
    lower case. *)
Fixpoint canonical (upper : bool) (s : string) : string :=
  match s with
  | EmptyString => EmptyString
  | String c rest =>
      let c' :=
        if upper && is_lower c then ascii_of_nat (nat_of_ascii c - 32)
        else if negb upper && is_upper c then ascii_of_nat (nat_of_ascii c + 32)
        else c in
      String c' (canonical (Ascii.eqb c "-"%char) rest)
  end.
Definition CanonicalMIMEHeaderKey (s : string) : string := canonical true s.

(** [Header.Get]: the first value under the canonical key, else [""]. *)
Definition Header_Get (h : gmap string (list string)) (key : string) : string :=
  match h !! CanonicalMIMEHeaderKey key with
  | Some (v :: _) => v
  | _ => ""
  end.

(** [url.Values.Get]: the first value under the key as given, else [""]. *)
Definition Values_Get (v : gmap string (list string)) (key : string) : string :=
  match v !! key with
  | Some (x :: _) => x
  | _ => ""
  end.

(** [mux.Vars(r)[key]]: a missing key reads as [""]. *)
Definition mux_Vars (r : Request) (key : string) : string :=
  default "" (Vars r !! key).

(** [context.Set(r, key, val)] *)
Definition context_Set (key : string) (u : User) : M unit := fun s =>
  (tt, mkStore (rec s) (<[key := u]> (ctx s)), [EvContextSet key u]).

(** [context.Get(r, key)] *)
Definition context_Get (key : string) : M (option User) := fun s =>
  (ctx s !! key, s, []).

(** Calling a handler value: its steps become one [EvHandler] node. *)
Definition invoke (handler : HandlerFunc) : HandlerFunc := fun r s =>
  let '(a, s', t) := handler r s in (a, s', [EvHandler t]).

(** A run panicked when a panic occurs among its steps, at any depth. *)
Fixpoint panicked_ev (e : Event) : bool :=
  match e with
  | EvPanic => true
  | EvHandler inner =>
      (fix go (l : list Event) : bool :=
         match l with
         | [] => false
         | x :: l' => panicked_ev x || go l'
         end) inner
  | _ => false
  end.

Fixpoint panicked (t : list Event) : bool :=
  match t with
  | [] => false
  | e :: t' => panicked_ev e || panicked t'
  end.

(** [prometheus.InstrumentHandlerFunc(name, h)]: runs [h] on the request
    and, when [h] returns, records the observation under the route name.
    The recording is not deferred: a panic of [h] unwinds past it and
    nothing is recorded. *)
Definition InstrumentHandlerFunc (name : string) (h : HandlerFunc) : HandlerFunc :=
  fun r s =>
    let '(a, s', t) := h r s in
    if panicked t then (a, s', t) else (a, s', t ++ [EvMetric name]).

(** [prometheus.Handler().ServeHTTP]: the metrics exposition; its text is
    not modelled. *)
Definition prometheus_Handler : HandlerFunc := fun _ => WriteHeader StatusOK.

(* ===================================================================== *)
(** ** Collaborators *)
(* ===================================================================== *)

(** [datacontroller.DataController]: the storage capability contract.  The
    upload receives the bounded body, the download returns a reader and an
    error, both of which a mock may set. *)
Record DataController := mkDataController {
  UploadBLOB : User -> string -> list byte -> option error;
  DownloadBLOB : User -> string -> Reader * option error
}.

(** [sdk.SDK]: [Auth.Verify(token)] returns the user and an error (the
    [*codes.Response] in between is dropped by the caller). *)
Record SDK := mkSDK {
  Auth_Verify : string -> User * option error
}.

Definition call_Verify (sdk : SDK) (token : string) : M (User * option error) :=
  emit (EvVerify token) ;; ret (Auth_Verify sdk token).

Definition call_DownloadBLOB (dc : DataController) (u : User) (path : string)
  : M (Reader * option error) :=
  emit (EvDownloadBLOB u path) ;; ret (DownloadBLOB dc u path).

Definition call_UploadBLOB (dc : DataController) (u : User) (path : string)
    (data : list byte) : M (option error) :=
  emit (EvUploadBLOB u path data) ;; ret (UploadBLOB dc u path data).

(* ===================================================================== *)
(** ** Transfer handlers *)
(* ===================================================================== *)

Section Handlers.

(** [keys.UserKey], the context key of the identity. *)
Variable UserKey : string.

(** Modelled from the spec: the error taxonomy translator (section 4.4);
    its source file is not part of the visible tree.  [NotFound] maps to
    404, every other failure to 500. *)
Definition translate (e : error) : Z :=
  match kind e with
  | NotFound => StatusNotFound
  | Other => StatusInternalServerError
  end.

(** Modelled from the spec: a failed outcome is answered with the translated
    status and the fixed textual reason of that status class (section 7). *)
Definition handleError (e : error) : M unit :=
  let code := translate e in
  http_Error (StatusText code) code.

(** [io.Copy(w, rd)]: read and write chunk by chunk until end of stream or
    a read failure.  A chunk stands for a read that delivered bytes; a
    chunk of no byte is passed on as a write of no byte, which leaves the
    status and the body as they are. *)
Fixpoint io_Copy (rd : Reader) : M (option error) :=
  match rd with
  | EOF => emit (EvRead ReadEOF) ;; ret None
  | Chunk c rest =>
      emit (EvRead (ReadChunk (length c))) ;; Write c ;; io_Copy rest
  | Broken e => emit (EvRead ReadFailed) ;; ret (Some e)
  end.

(** Modelled from the spec: the Download handler (section 4.3); its source
    file is not part of the visible tree.  The identity is the one the
    guard attached to the context; a missing identity is the panic of the
    Go type assertion.  Step 1 asks the collaborator and answers a failed
    request at once.  Step 2 reads one chunk before any status is
    committed; a failed first read is answered as a generic internal
    failure.  Step 3 commits the success status, writes the chunk already
    read and copies the remainder.  The spec names a failed and a confirmed
    first read only: when the first read meets the end of the stream the
    handler writes nothing, and the response keeps the default status of
    the server. *)
Definition Download (dc : DataController) : HandlerFunc := fun r =>
  ident <- context_Get UserKey ;;
  match ident with
  | None => emit EvPanic
  | Some user =>
      out <- call_DownloadBLOB dc user (mux_Vars r "path") ;;
      match snd out with
      | Some e => handleError e
      | None =>
          match fst out with
          | Broken _ =>
              emit (EvRead ReadFailed) ;;
              http_Error (StatusText StatusInternalServerError)
                         StatusInternalServerError
          | EOF =>
              emit (EvRead ReadEOF)
          | Chunk c rest =>
              emit (EvRead (ReadChunk (length c))) ;;
              WriteHeader StatusOK ;;
              Write c ;;
              _ <- io_Copy rest ;;
              ret tt
          end
      end
  end.

(** Modelled from the spec: the hard-capped read of the request body
    (section 4.3), at most [n] bytes. *)
Definition readBody (r : Request) (n : nat) : M (list byte) :=
  let data := take n (Body r) in
  emit (EvBodyRead (length data)) ;; ret data.

(** Modelled from the spec: the Upload handler (section 4.3); its source
    file is not part of the visible tree.  Step 1 rejects with
    [PayloadTooLarge] before reading any byte when the declared or the
    actual body size exceeds the maximum.  Step 2 hands the body, capped at
    the maximum, to the collaborator.  Step 3 translates a failure, and
    answers a success with a success status and no body (the spec does not
    fix which one; 200 is used). *)
Definition Upload (dc : DataController) (RequestBodyMaxSize : Z) : HandlerFunc :=
  fun r =>
  ident <- context_Get UserKey ;;
  match ident with
  | None => emit EvPanic
  | Some user =>
      if (RequestBodyMaxSize <? ContentLength r)
         || (RequestBodyMaxSize <? Z.of_nat (length (Body r)))
      then http_Error (StatusText StatusRequestEntityTooLarge)
                      StatusRequestEntityTooLarge
      else
        data <- readBody r (Z.to_nat RequestBodyMaxSize) ;;
        err <- call_UploadBLOB dc user (mux_Vars r "path") data ;;
        match err with
        | Some e => handleError e
        | None => WriteHeader StatusOK
        end
  end.

End Handlers.

(* ===================================================================== *)
(** ** The service facade of [service/service.go] *)
(* ===================================================================== *)

Module TokenService.

Record GeneralConfig := mkGeneralConfig {
  AuthenticationServiceBaseURL : string;
  RequestBodyMaxSize : Z
}.

Record DataControllerConfig := mkDataControllerConfig {
  Type_ : string;
  SimpleDataDir : string;
  SimpleTempDir : string;
  SimpleChecksum : string;
  SimpleVerifyClientChecksum : bool
}.

(** [Config]; the pointers are the non-nil ones [New] insists on. *)
Record Config := mkConfig {
  General : GeneralConfig;
  DataControllerConf : DataControllerConfig
}.

Record Service := mkService {
  s_Config : Config;
  s_SDK : SDK;
  s_DataController : DataController
}.

Section Methods.

Variable UserKey : string.

Definition Prefix (s : Service) : string := "/clawio/v1/data".

Definition Middleware (s : Service) (h : HandlerFunc) : HandlerFunc := h.

Definition getTokenFromRequest (s : Service) (r : Request) : string :=
  let t := Header_Get (Header r) "token" in
  if negb (String.eqb t "") then t
  else Values_Get (Query r) "token".

Definition authenticateHandlerFunc (s : Service) (handler : HandlerFunc)
  : HandlerFunc := fun r =>
  let token := getTokenFromRequest s r in
  res <- call_Verify (s_SDK s) token ;;
  match snd res with
  | Some _ =>
      http_Error (StatusText StatusUnauthorized) StatusUnauthorized
  | None =>
      context_Set UserKey (fst res) ;;
      invoke handler r
  end.

(** The method values [s.Upload] and [s.Download]. *)
Definition s_Upload (s : Service) : HandlerFunc :=
  Upload UserKey (s_DataController s) (RequestBodyMaxSize (General (s_Config s))).
Definition s_Download (s : Service) : HandlerFunc :=
  Download UserKey (s_DataController s).

Definition Endpoints (s : Service) : gmap string (gmap string HandlerFunc) :=
  <["/metrics" := {[ "GET" := prometheus_Handler ]}]>
  (<["/upload/{path:.*}" :=
       {[ "PUT" := InstrumentHandlerFunc "/upload"
                     (authenticateHandlerFunc s (s_Upload s)) ]}]>
  (<["/download/{path:.*}" :=
       {[ "GET" := InstrumentHandlerFunc "/download"
                     (authenticateHandlerFunc s (s_Download s)) ]}]> ∅)).

(** The handler registered for a path template and a method. *)
Definition endpoint (s : Service) (template method : string)
  : option HandlerFunc :=
  m ← Endpoints s !! template; m !! method.

End Methods.

End TokenService.

(* ===================================================================== *)
(** ** The sibling facade with a configured [BaseURL] *)
(* ===================================================================== *)

Module BaseURLService.

Record GeneralConfig := mkGeneralConfig {
  BaseURL : string;
  JWTKey : string;
  JWTSigningMethod : string;
  AuthenticationServiceBaseURL : string;
  RequestBodyMaxSize : Z
}.

Record Config := mkConfig {
  General : GeneralConfig;
  DataControllerConf : TokenService.DataControllerConfig
}.

Record Service := mkService {
  s_Config : Config;
  s_SDK : SDK;
  s_DataController : DataController
}.

Section Methods.

Variable UserKey : string.

(** [lib.NewAuthenticator(key, method).JWTHandlerFunc], a guard of the
    authentication library. *)
Variable JWTHandlerFunc : string -> string -> HandlerFunc -> HandlerFunc.

Definition Prefix (s : Service) : string :=
  let base := BaseURL (General (s_Config s)) in
  if String.eqb base "" then "/" else base.

Definition Middleware (s : Service) (h : HandlerFunc) : HandlerFunc := h.

Definition s_Upload (s : Service) : HandlerFunc :=
  Upload UserKey (s_DataController s) (RequestBodyMaxSize (General (s_Config s))).
Definition s_Download (s : Service) : HandlerFunc :=
  Download UserKey (s_DataController s).

Definition Endpoints (s : Service) : gmap string (gmap string HandlerFunc) :=
  let authenticator :=
    JWTHandlerFunc (JWTKey (General (s_Config s)))
                   (JWTSigningMethod (General (s_Config s))) in
  <["/metrics" := {[ "GET" := prometheus_Handler ]}]>
  (<["/upload/{path:.*}" :=
       {[ "PUT" := InstrumentHandlerFunc "/upload" (authenticator (s_Upload s)) ]}]>
  (<["/download/{path:.*}" :=
       {[ "GET" := InstrumentHandlerFunc "/download"
                     (authenticator (s_Download s)) ]}]> ∅)).

End Methods.

End BaseURLService.

(* ===================================================================== *)
(** ** Observations on traces *)
(* ===================================================================== *)

(** The steps of a request in order, handler steps spliced in place. *)
Fixpoint flatten_ev (e : Event) : list Event :=
  match e with
  | EvHandler inner =>
      (fix go (l : list Event) : list Event :=
         match l with
         | [] => []
         | x :: l' => flatten_ev x ++ go l'
         end) inner
  | _ => [e]
  end.

Fixpoint flatten (t : list Event) : list Event :=
  match t with
  | [] => []
  | e :: t' => flatten_ev e ++ flatten t'
  end.

Fixpoint count (p : Event -> bool) (t : list Event) : nat :=
  match t with
  | [] => O
  | e :: t' => ((if p e then 1 else 0) + count p t')%nat
  end.

Definition is_handler (e : Event) : bool :=
  match e with EvHandler _ => true | _ => false end.
Definition is_attach (e : Event) : bool :=
  match e with EvContextSet _ _ => true | _ => false end.
Definition is_storage_call (e : Event) : bool :=
  match e with EvDownloadBLOB _ _ | EvUploadBLOB _ _ _ => true | _ => false end.
Definition is_status (e : Event) : bool :=
  match e with EvWriteHeader _ => true | _ => false end.
Definition is_success_status (e : Event) : bool :=
  match e with EvWriteHeader c => c =? StatusOK | _ => false end.

(** How often the guard called the handler it wraps. *)
Definition handler_calls (t : list Event) : nat := count is_handler t.
(** How often an identity was attached to the context by the guard. *)
Definition attachments (t : list Event) : nat := count is_attach t.
(** Calls made to the storage collaborator, at any depth. *)
Definition storage_calls (t : list Event) : nat :=
  count is_storage_call (flatten t).
(** Bytes of the request body that were read, at any depth. *)
Definition body_bytes_read (t : list Event) : nat :=
  foldr (fun e n => match e with EvBodyRead k => (k + n)%nat | _ => n end)
        O (flatten t).

(** The chunks a reader delivers, one per successful read. *)
Fixpoint reader_chunks (rd : Reader) : list (list byte) :=
  match rd with
  | EOF => []
  | Chunk c rest => c :: reader_chunks rest
  | Broken _ => []
  end.

(** The steps [io.Copy] takes on a reader once the header is written. *)
Fixpoint copy_trace (rd : Reader) : list Event :=
  match rd with
  | EOF => [EvRead ReadEOF]
  | Chunk c rest => EvRead (ReadChunk (length c)) :: EvWrite c :: copy_trace rest
  | Broken _ => [EvRead ReadFailed]
  end.

(** The error [io.Copy] returns. *)
Fixpoint copy_result (rd : Reader) : option error :=
  match rd with
  | EOF => None
  | Chunk _ rest => copy_result rest
  | Broken e => Some e
  end.

(** The data of the writes to the response, in order. *)
Fixpoint writes (t : list Event) : list (list byte) :=
  match t with
  | [] => []
  | EvWrite d :: t' => d :: writes t'
  | _ :: t' => writes t'
  end.

(** The steps that touch the response: status lines and body writes. *)
Fixpoint responses (t : list Event) : list Event :=
  match t with
  | [] => []
  | EvWriteHeader c :: t' => EvWriteHeader c :: responses t'
  | EvWrite d :: t' => EvWrite d :: responses t'
  | _ :: t' => responses t'
  end.

(** Every commitment of the success status comes after a read of the
    stream that delivered a chunk. *)
Definition success_only_after_read (t : list Event) : Prop :=
  forall i : nat,
    t !! i = Some (EvWriteHeader StatusOK) ->
    exists (j n : nat),
      (j < i)%nat /\ t !! j = Some (EvRead (ReadChunk n)).

(** The routes [Endpoints] registers behind the authentication guard. *)
Definition authenticated_routes : list (string * string) :=
  [("/upload/{path:.*}", "PUT"); ("/download/{path:.*}", "GET")].

(* ===================================================================== *)
(** ** Fixtures of the test suite *)
(* ===================================================================== *)

Module Fixtures.

(** [user = &entities.User{Username: "test"}] *)
Definition user : User := mkUser "test".

Definition validToken : string := "valid".

(** A mock authentication service that accepts [validToken] only. *)
Definition mockAuthService : SDK :=
  mkSDK (fun t =>
    if String.eqb t validToken then (user, None)
    else (mkUser "", Some (errors_New "invalid token"))).

(** [MockDataController.On("DownloadBLOB").Return(reader, err)] *)
Definition mockDataController (reader : Reader) (err : option error)
  : DataController :=
  mkDataController (fun _ _ _ => None) (fun _ _ => (reader, err)).

Definition dcConfig : TokenService.DataControllerConfig :=
  TokenService.mkDataControllerConfig "simple" "/tmp" "/tmp" "" false.

(** [RequestBodyMaxSize: 1024] as in [SetupTest]. *)
Definition cfg : TokenService.Config :=
  TokenService.mkConfig (TokenService.mkGeneralConfig "" 1024) dcConfig.

Definition svc (reader : Reader) (err : option error) : TokenService.Service :=
  TokenService.mkService cfg mockAuthService (mockDataController reader err).

(** A facade whose body limit is [n] bytes. *)
Definition svcLimit (n : Z) : TokenService.Service :=
  TokenService.mkService
    (TokenService.mkConfig (TokenService.mkGeneralConfig "" n) dcConfig)
    mockAuthService (mockDataController EOF None).

Definition baseCfg (base : string) : BaseURLService.Config :=
  BaseURLService.mkConfig
    (BaseURLService.mkGeneralConfig base "secret" "HS256" "" 1024) dcConfig.

Definition baseSvc (base : string) : BaseURLService.Service :=
  BaseURLService.mkService (baseCfg base) mockAuthService
    (mockDataController EOF None).

(** [GET downloadURL+"myblob"] carrying [tok] in the [token] header. *)
Definition getBlob (tok : string) : Request :=
  mkRequest "GET" {[ "Token" := [tok] ]} ∅ {[ "path" := "myblob" ]} 0 [].

(** [PUT uploadURL+"myblob"] with [body], the token in the query. *)
Definition putBlob (tok : string) (body : list byte) : Request :=
  mkRequest "PUT" ∅ {[ "token" := [tok] ]} {[ "path" := "myblob" ]}
            (Z.of_nat (length body)) body.

(** A request that carries a token in the header and another in the query. *)
Definition bothTokens : Request :=
  mkRequest "GET" {[ "Token" := ["from-header"] ]}
            {[ "token" := ["from-query"] ]} ∅ 0 [].

Definition userKey : string := "user".

(** Serving a request on a registered route into a new recorder: the
    status and the body the test then inspects. *)
Definition serve (s : TokenService.Service) (template method : string)
    (r : Request) : option (Z * list byte) :=
  h ← TokenService.endpoint userKey s template method;
  Some (status_of (h r fresh), body_of (h r fresh)).

End Fixtures.

(* ===================================================================== *)
(** ** Construction of the service *)
(* ===================================================================== *)

(** gizmo's [config.Server]; the service never reads its fields. *)
Inductive config_Server := mk_config_Server.

(** [sdk.ServiceEndpoints]; [New] sets the authentication URL only. *)
Record ServiceEndpoints := mkServiceEndpoints { AuthServiceBaseURL : string }.

(** [datacontroller.SimpleDataControllerOptions] *)
Record SimpleDataControllerOptions := mkSimpleDataControllerOptions {
  DataDir : string;
  TempDir : string;
  Checksum : string;
  VerifyClientChecksum : bool
}.

(** The permission bits [0755] of both [os.MkdirAll] calls. *)
Definition perm0755 : Z := 493.

(** [New] and [getDataController] of [service/service.go].  The file system
    is a state of any type [FS] that [os.MkdirAll] transforms;
    [sdk.New] and [datacontroller.NewSimpleDataController] are the
    constructors of the collaborators. *)
Module TokenServiceNew.

(** The [*Config] that [New] receives: each pointer may be nil. *)
Record ConfigRef := mkConfigRef {
  cfg_Server : option config_Server;
  cfg_General : option TokenService.GeneralConfig;
  cfg_DataController : option TokenService.DataControllerConfig
}.

Section Constructor.

Context {FS : Type}.
Variable os_MkdirAll : string -> Z -> FS -> FS * option error.
Variable sdk_New : ServiceEndpoints -> SDK.
Variable NewSimpleDataController : SimpleDataControllerOptions -> DataController.

Definition getDataController (cfg : TokenService.DataControllerConfig) (fs : FS)
  : (option DataController * option error) * FS :=
  let opts := mkSimpleDataControllerOptions
                (TokenService.SimpleDataDir cfg)
                (TokenService.SimpleTempDir cfg)
                (TokenService.SimpleChecksum cfg)
                (TokenService.SimpleVerifyClientChecksum cfg) in
  let r1 := os_MkdirAll (DataDir opts) perm0755 fs in
  match snd r1 with
  | Some err => ((None, Some err), fst r1)
  | None =>
      let r2 := os_MkdirAll (TempDir opts) perm0755 (fst r1) in
      match snd r2 with
      | Some err => ((None, Some err), fst r2)
      | None => ((Some (NewSimpleDataController opts), None), fst r2)
      end
  end.

Definition New (cfg : option ConfigRef) (fs : FS)
  : (option TokenService.Service * option error) * FS :=
  match cfg with
  | None => ((None, Some (errors_New "config is nil")), fs)
  | Some c =>
      match cfg_General c with
      | None => ((None, Some (errors_New "config.General is nil")), fs)
      | Some general =>
          match cfg_DataController c with
          | None =>
              ((None, Some (errors_New "config.DataController is  nil")), fs)
          | Some dcc =>
              let urls := mkServiceEndpoints
                            (TokenService.AuthenticationServiceBaseURL general) in
              let s := sdk_New urls in
              let r := getDataController dcc fs in
              match fst r with
              | (_, Some err) => ((None, Some err), snd r)
              | (None, None) =>
                  (* not reached: [getDataController] returns a controller
                     whenever it returns no error *)
                  ((None, None), snd r)
              | (Some dataController, None) =>
                  ((Some (TokenService.mkService
                            (TokenService.mkConfig general dcc) s dataController),
                    None), snd r)
              end
          end
      end
  end.

End Constructor.

End TokenServiceNew.

(** [New] and [getDataController] of the facade with [BaseURL]; the
    options are [simple.Options] and the constructor is [simple.New]. *)
Module BaseURLServiceNew.

Record simple_Options := mk_simple_Options {
  DataDir : string;
  TempDir : string;
  Checksum : string;
  VerifyClientChecksum : bool
}.

Record ConfigRef := mkConfigRef {
  cfg_Server : option config_Server;
  cfg_General : option BaseURLService.GeneralConfig;
  cfg_DataController : option TokenService.DataControllerConfig
}.

Section Constructor.

Context {FS : Type}.
Variable os_MkdirAll : string -> Z -> FS -> FS * option error.
Variable sdk_New : ServiceEndpoints -> SDK.
Variable simple_New : simple_Options -> DataController.

Definition getDataController (cfg : TokenService.DataControllerConfig) (fs : FS)
  : (option DataController * option error) * FS :=
  let opts := mk_simple_Options
                (TokenService.SimpleDataDir cfg)
                (TokenService.SimpleTempDir cfg)
                (TokenService.SimpleChecksum cfg)
                (TokenService.SimpleVerifyClientChecksum cfg) in
  let r1 := os_MkdirAll (DataDir opts) perm0755 fs in
  match snd r1 with
  | Some err => ((None, Some err), fst r1)
  | None =>
      let r2 := os_MkdirAll (TempDir opts) perm0755 (fst r1) in
      match snd r2 with
      | Some err => ((None, Some err), fst r2)
      | None => ((Some (simple_New opts), None), fst r2)
      end
  end.

Definition New (cfg : option ConfigRef) (fs : FS)
  : (option BaseURLService.Service * option error) * FS :=
  match cfg with
  | None => ((None, Some (errors_New "config is nil")), fs)
  | Some c =>
      match cfg_General c with
      | None => ((None, Some (errors_New "config.General is nil")), fs)
      | Some general =>
          match cfg_DataController c with
          | None =>
              ((None, Some (errors_New "config.DataController is  nil")), fs)
          | Some dcc =>
              let urls := mkServiceEndpoints
                            (BaseURLService.AuthenticationServiceBaseURL general) in
              let s := sdk_New urls in
              let r := getDataController dcc fs in
              match fst r with
              | (_, Some err) => ((None, Some err), snd r)
              | (None, None) =>
                  (* not reached: [getDataController] returns a controller
                     whenever it returns no error *)
                  ((None, None), snd r)
              | (Some dataController, None) =>
                  ((Some (BaseURLService.mkService
                            (BaseURLService.mkConfig general dcc) s dataController),
                    None), snd r)
              end
          end
      end
  end.

End Constructor.

End BaseURLServiceNew.

(* ===================================================================== *)
(** ** Requests as the tests build them *)
(* ===================================================================== *)

(** [Header.Set]: one value under the canonical key, replacing the old ones. *)
Definition Header_Set (h : gmap string (list string)) (key value : string)
  : gmap string (list string) :=
  <[CanonicalMIMEHeaderKey key := [value]]> h.

Definition with_Header (r : Request) (h : gmap string (list string)) : Request :=
  mkRequest (Method r) h (Query r) (Vars r) (ContentLength r) (Body r).

(** [setToken] of the test suite: the credential goes into the
    [Authorization] header under the bearer scheme. *)
Definition setToken (jwtToken : string) (r : Request) : Request :=
  with_Header r (Header_Set (Header r) "Authorization" ("bearer " +:+ jwtToken)).

(** [http.NewRequest("GET", url, nil)] for a URL without a query string:
    no header and no parameter. *)
Definition bareGet : Request := mkRequest "GET" ∅ ∅ ∅ 0 [].

(** The handler the facade with [BaseURL] registers for a template and a
    method. *)
Definition BaseURL_endpoint (UserKey : string)
    (JWTHandlerFunc : string -> string -> HandlerFunc -> HandlerFunc)
    (s : BaseURLService.Service) (template method : string)
  : option HandlerFunc :=
  m ← BaseURLService.Endpoints UserKey JWTHandlerFunc s !! template; m !! method.

(** The three registrations of [Endpoints]. *)
Definition registered_routes : list (string * string) :=
  ("/metrics", "GET") :: authenticated_routes.

Definition is_metric (e : Event) : bool :=
  match e with EvMetric _ => true | _ => false end.

Definition is_verify (e : Event) : bool :=
  match e with EvVerify _ => true | _ => false end.

Definition with_Query (r : Request) (q : gmap string (list string)) : Request :=
  mkRequest (Method r) (Header r) q (Vars r) (ContentLength r) (Body r).

(** Fixtures of the constructor tests: a file system that lists the
    directories made so far and refuses to make anything under
    [/i/cannot/write/here]. *)
Module NewFixtures.

Definition mkdirAll (path : string) (perm : Z) (fs : list string)
  : list string * option error :=
  if String.prefix "/i/cannot/write/here" path
  then (fs, Some (errors_New "permission denied"))
  else (path :: fs, None).

Definition sdkNew (urls : ServiceEndpoints) : SDK := Fixtures.mockAuthService.

Definition newController (opts : SimpleDataControllerOptions) : DataController :=
  Fixtures.mockDataController EOF None.

Definition dcc (dataDir tempDir : string) : TokenService.DataControllerConfig :=
  TokenService.mkDataControllerConfig "simple" dataDir tempDir "" false.

Definition general : TokenService.GeneralConfig :=
  TokenService.mkGeneralConfig "" 1024.

End NewFixtures.

(* ===================================================================== *)
(** ** Basic facts *)
(* ===================================================================== *)

Lemma flatten_ev_handler inner : flatten_ev (EvHandler inner) = flatten inner.
Proof.
  simpl. induction inner as [|x l IH]; simpl; [reflexivity|].
  now rewrite IH.
Qed.

Lemma flatten_app t1 t2 : flatten (t1 ++ t2) = flatten t1 ++ flatten t2.
Proof.
  induction t1 as [|e t1 IH]; simpl; [reflexivity|].
  now rewrite IH, app_assoc.
Qed.

Lemma count_app p t1 t2 : count p (t1 ++ t2) = (count p t1 + count p t2)%nat.
Proof. induction t1 as [|e t1 IH]; simpl; [reflexivity|]. rewrite IH. lia. Qed.


Lemma canonical_token : CanonicalMIMEHeaderKey "token" = "Token".
Proof. reflexivity. Qed.

(* ===================================================================== *)
(** ** The facade: prefix, middleware, token extraction *)
(* ===================================================================== *)

(** C8. Under the token header/query convention the credential comes from
    one place: [getTokenFromRequest] returns the value of the [token]
    header when that value is not empty, and the value of the [token] query
    parameter otherwise. *)
Theorem getTokenFromRequest_location (s : TokenService.Service) (r : Request) :
  (Header_Get (Header r) "token" <> "" ->
   TokenService.getTokenFromRequest s r = Header_Get (Header r) "token") /\
  (Header_Get (Header r) "token" = "" ->
   TokenService.getTokenFromRequest s r = Values_Get (Query r) "token").
Proof.
  unfold TokenService.getTokenFromRequest.
  destruct (String.eqb_spec (Header_Get (Header r) "token") "") as [E|N]; simpl.
  - split; [intros H; contradiction | reflexivity].
  - split; [reflexivity | intros H; contradiction].
Qed.

Lemma getTokenFromRequest_location_witness :
  TokenService.getTokenFromRequest (Fixtures.svc EOF None) Fixtures.bothTokens
    = "from-header" /\
  TokenService.getTokenFromRequest (Fixtures.svc EOF None)
    (Fixtures.putBlob "from-query" []) = "from-query".
Proof.
  split.
  - apply (proj1 (getTokenFromRequest_location
                    (Fixtures.svc EOF None) Fixtures.bothTokens)).
    vm_compute. discriminate.
  - apply (proj2 (getTokenFromRequest_location
                    (Fixtures.svc EOF None) (Fixtures.putBlob "from-query" []))).
    vm_compute. reflexivity.
Defined.

Lemma endpoint_upload (UserKey : string) (s : TokenService.Service) :
  TokenService.endpoint UserKey s "/upload/{path:.*}" "PUT" =
  Some (InstrumentHandlerFunc "/upload"
          (TokenService.authenticateHandlerFunc UserKey s
             (TokenService.s_Upload UserKey s))).
Proof.
  unfold TokenService.endpoint, TokenService.Endpoints.
  rewrite lookup_insert_ne by discriminate.
  rewrite lookup_insert_eq. simpl.
  apply lookup_singleton_eq.
Qed.

Lemma endpoint_download (UserKey : string) (s : TokenService.Service) :
  TokenService.endpoint UserKey s "/download/{path:.*}" "GET" =
  Some (InstrumentHandlerFunc "/download"
          (TokenService.authenticateHandlerFunc UserKey s
             (TokenService.s_Download UserKey s))).
Proof.
  unfold TokenService.endpoint, TokenService.Endpoints.
  do 2 (rewrite lookup_insert_ne by discriminate).
  rewrite lookup_insert_eq. simpl.
  apply lookup_singleton_eq.
Qed.

Lemma endpoint_metrics (UserKey : string) (s : TokenService.Service) :
  TokenService.endpoint UserKey s "/metrics" "GET" = Some prometheus_Handler.
Proof.
  unfold TokenService.endpoint, TokenService.Endpoints.
  rewrite lookup_insert_eq. simpl.
  apply lookup_singleton_eq.
Qed.

(** C10. [Middleware] is the identity on handlers in both facades, so
    nothing is authenticated at the middleware layer; in both facades the
    guard sits on the upload and download registrations inside
    [Endpoints], and the metrics route is registered without it. *)
Theorem Middleware_identity (UserKey : string)
    (JWTHandlerFunc : string -> string -> HandlerFunc -> HandlerFunc) :
  (forall (s : TokenService.Service) (h : HandlerFunc),
      TokenService.Middleware s h = h) /\
  (forall (s : BaseURLService.Service) (h : HandlerFunc),
      BaseURLService.Middleware s h = h) /\
  (forall s : BaseURLService.Service,
      let guard :=
        JWTHandlerFunc
          (BaseURLService.JWTKey (BaseURLService.General (BaseURLService.s_Config s)))
          (BaseURLService.JWTSigningMethod
             (BaseURLService.General (BaseURLService.s_Config s))) in
      BaseURLService.Endpoints UserKey JWTHandlerFunc s !! "/upload/{path:.*}" =
        Some {[ "PUT" := InstrumentHandlerFunc "/upload"
                           (guard (BaseURLService.s_Upload UserKey s)) ]} /\
      BaseURLService.Endpoints UserKey JWTHandlerFunc s !! "/download/{path:.*}" =
        Some {[ "GET" := InstrumentHandlerFunc "/download"
                           (guard (BaseURLService.s_Download UserKey s)) ]} /\
      BaseURLService.Endpoints UserKey JWTHandlerFunc s !! "/metrics" =
        Some {[ "GET" := prometheus_Handler ]}) /\
  (forall s : TokenService.Service,
      TokenService.endpoint UserKey s "/upload/{path:.*}" "PUT" =
        Some (InstrumentHandlerFunc "/upload"
                (TokenService.authenticateHandlerFunc UserKey s
                   (TokenService.s_Upload UserKey s))) /\
      TokenService.endpoint UserKey s "/download/{path:.*}" "GET" =
        Some (InstrumentHandlerFunc "/download"
                (TokenService.authenticateHandlerFunc UserKey s
                   (TokenService.s_Download UserKey s))) /\
      TokenService.endpoint UserKey s "/metrics" "GET" =
        Some prometheus_Handler).
Proof.
  split; [reflexivity|]. split; [reflexivity|]. split.
  - intros s guard. unfold BaseURLService.Endpoints. fold guard.
    split; [|split].
    + rewrite lookup_insert_ne by discriminate. apply lookup_insert_eq.
    + do 2 (rewrite lookup_insert_ne by discriminate). apply lookup_insert_eq.
    + apply lookup_insert_eq.
  - intros s. split; [apply endpoint_upload|].
    split; [apply endpoint_download | apply endpoint_metrics].
Qed.

(** C7, counterexample. In the facade of [service.go], which has no base
    URL setting at all, [Prefix] is not ["/"]; and in the facade with
    [BaseURL], a configured base of ["/"] also resolves to ["/"], so the
    result ["/"] does not tell that the base is unset. *)
Lemma Prefix_claim_counterexample :
  TokenService.Prefix (Fixtures.svc EOF None) = "/clawio/v1/data" /\
  TokenService.Prefix (Fixtures.svc EOF None) <> "/" /\
  BaseURLService.Prefix (Fixtures.baseSvc "/") = "/" /\
  BaseURLService.BaseURL
    (BaseURLService.General (BaseURLService.s_Config (Fixtures.baseSvc "/")))
    <> "".
Proof.
  split; [reflexivity|]. split; [discriminate|].
  split; [reflexivity | discriminate].
Qed.

(** C7, amended. In the facade with [BaseURL], [Prefix] is ["/"] when the
    base is empty and the configured literal otherwise, hence ["/"] exactly
    when the base is empty or is ["/"] itself; in the facade of
    [service.go], [Prefix] is the fixed literal ["/clawio/v1/data"] in every
    configuration. *)
Theorem Prefix_resolution :
  (forall s : BaseURLService.Service,
      let base := BaseURLService.BaseURL
                    (BaseURLService.General (BaseURLService.s_Config s)) in
      BaseURLService.Prefix s = (if decide (base = "") then "/" else base) /\
      (BaseURLService.Prefix s = "/" <-> base = "" \/ base = "/")) /\
  (forall s : TokenService.Service,
      TokenService.Prefix s = "/clawio/v1/data").
Proof.
  split; [|reflexivity].
  intros s base. unfold BaseURLService.Prefix. fold base.
  destruct (String.eqb_spec base "") as [E|N].
  - rewrite decide_True by assumption. split; [reflexivity|].
    split; [intros _; left; assumption | reflexivity].
  - rewrite decide_False by assumption. split; [reflexivity|].
    split; [intros H; right; assumption | intros [H|H]; [contradiction|assumption]].
Qed.

(* ===================================================================== *)
(** ** The authentication guard *)
(* ===================================================================== *)

Section Guard.

Variable UserKey : string.
Variable s : TokenService.Service.

Lemma guard_reject (handler : HandlerFunc) (r : Request) (st : Store) (e : error) :
  snd (Auth_Verify (TokenService.s_SDK s) (TokenService.getTokenFromRequest s r)) = Some e ->
  TokenService.authenticateHandlerFunc UserKey s handler r st =
  (emit (EvVerify (TokenService.getTokenFromRequest s r)) ;;
   http_Error (StatusText StatusUnauthorized) StatusUnauthorized) st.
Proof.
  intros Hv.
  unfold TokenService.authenticateHandlerFunc, call_Verify, bind, emit, ret.
  simpl. rewrite Hv. reflexivity.
Qed.

Lemma guard_accept (handler : HandlerFunc) (r : Request) (st : Store) :
  snd (Auth_Verify (TokenService.s_SDK s) (TokenService.getTokenFromRequest s r)) = None ->
  TokenService.authenticateHandlerFunc UserKey s handler r st =
  (emit (EvVerify (TokenService.getTokenFromRequest s r)) ;;
   context_Set UserKey (fst (Auth_Verify (TokenService.s_SDK s) (TokenService.getTokenFromRequest s r))) ;;
   invoke handler r) st.
Proof.
  intros Hv.
  unfold TokenService.authenticateHandlerFunc, call_Verify, bind, emit, ret.
  simpl. rewrite Hv. reflexivity.
Qed.

Lemma guard_accept_trace (handler : HandlerFunc) (r : Request) (st : Store) :
  snd (Auth_Verify (TokenService.s_SDK s) (TokenService.getTokenFromRequest s r)) = None ->
  trace_of (TokenService.authenticateHandlerFunc UserKey s handler r st) =
  [EvVerify (TokenService.getTokenFromRequest s r);
   EvContextSet UserKey (fst (Auth_Verify (TokenService.s_SDK s) (TokenService.getTokenFromRequest s r)));
   EvHandler (trace_of (handler r
      (mkStore (rec st) (<[UserKey := fst (Auth_Verify (TokenService.s_SDK s) (TokenService.getTokenFromRequest s r))]> (ctx st)))))].
Proof.
  intros Hv. rewrite guard_accept by assumption.
  unfold bind, emit, context_Set, invoke, trace_of. simpl.
  destruct (handler r _) as [[a s'] t]. reflexivity.
Qed.

Lemma guard_accept_store (handler : HandlerFunc) (r : Request) (st : Store) :
  snd (Auth_Verify (TokenService.s_SDK s) (TokenService.getTokenFromRequest s r)) = None ->
  store_of (TokenService.authenticateHandlerFunc UserKey s handler r st) =
  store_of (handler r (mkStore (rec st) (<[UserKey := fst (Auth_Verify (TokenService.s_SDK s) (TokenService.getTokenFromRequest s r))]> (ctx st)))).
Proof.
  intros Hv. rewrite guard_accept by assumption.
  unfold bind, emit, context_Set, invoke, store_of. simpl.
  destruct (handler r _) as [[a s'] t]. reflexivity.
Qed.

Lemma guard_reject_trace (handler : HandlerFunc) (r : Request) (st : Store) (e : error) :
  snd (Auth_Verify (TokenService.s_SDK s) (TokenService.getTokenFromRequest s r)) = Some e ->
  exists t,
    trace_of (TokenService.authenticateHandlerFunc UserKey s handler r st) =
      EvVerify (TokenService.getTokenFromRequest s r) :: t /\
    handler_calls t = O /\ attachments t = O /\ storage_calls t = O /\
    body_bytes_read t = O.
Proof.
  intros Hv. rewrite (guard_reject _ _ _ e) by assumption.
  destruct st as [[code [|] body] c];
    (eexists; split; [reflexivity | repeat split; reflexivity]).
Qed.

Lemma guard_reject_fresh (handler : HandlerFunc) (r : Request)
    (c : gmap string User) (e : error) :
  snd (Auth_Verify (TokenService.s_SDK s) (TokenService.getTokenFromRequest s r)) = Some e ->
  let out := TokenService.authenticateHandlerFunc UserKey s handler r
               (mkStore NewRecorder c) in
  status_of out = StatusUnauthorized /\
  body_of out = bytes_of ("Unauthorized" +:+ String "010"%char "") /\
  ctx (store_of out) = c.
Proof.
  intros Hv out. unfold out. rewrite (guard_reject _ _ _ e) by assumption.
  repeat split.
Qed.

End Guard.

Lemma store_of_run {A} (a : A) (st : Store) (t : list Event) :
  store_of (a, st, t) = st.
Proof. reflexivity. Qed.

Lemma trace_of_run {A} (a : A) (st : Store) (t : list Event) :
  trace_of (a, st, t) = t.
Proof. reflexivity. Qed.

(** What the instrumentation appends to the steps [t] of the handler. *)
Lemma instrument_run (name : string) (h : HandlerFunc) (r : Request) (st : Store) :
  InstrumentHandlerFunc name h r st =
  (tt, store_of (h r st),
   trace_of (h r st) ++
   (if panicked (trace_of (h r st)) then [] else [EvMetric name])).
Proof.
  unfold InstrumentHandlerFunc, store_of, trace_of.
  destruct (h r st) as [[[] s'] t]. simpl.
  destruct (panicked t); [now rewrite app_nil_r | reflexivity].
Qed.

Lemma handler_calls_metric t name (b : bool) :
  handler_calls (t ++ (if b then [] else [EvMetric name])) = handler_calls t.
Proof. unfold handler_calls. rewrite count_app. destruct b; simpl; lia. Qed.

Lemma storage_calls_metric t name (b : bool) :
  storage_calls (t ++ (if b then [] else [EvMetric name])) = storage_calls t.
Proof.
  unfold storage_calls. rewrite flatten_app, count_app. destruct b; simpl; lia.
Qed.

Lemma panicked_ev_handler inner : panicked_ev (EvHandler inner) = panicked inner.
Proof.
  simpl. induction inner as [|x l IH]; simpl; [reflexivity|].
  now rewrite IH.
Qed.

Lemma panicked_app t1 t2 : panicked (t1 ++ t2) = panicked t1 || panicked t2.
Proof.
  induction t1 as [|e t1 IH]; simpl; [reflexivity|].
  now rewrite IH, orb_assoc.
Qed.

(** A refused request does not panic. *)
Lemma guard_reject_no_panic (UserKey : string) (s : TokenService.Service)
    (handler : HandlerFunc) (r : Request) (st : Store) (e : error) :
  snd (Auth_Verify (TokenService.s_SDK s) (TokenService.getTokenFromRequest s r))
    = Some e ->
  panicked (trace_of (TokenService.authenticateHandlerFunc UserKey s handler r st))
    = false.
Proof.
  intros Hv. rewrite (guard_reject UserKey s handler r st e Hv).
  destruct st as [[code [|] body] c]; reflexivity.
Qed.

(** An admitted request panics exactly when its handler does. *)
Lemma guard_accept_panicked (UserKey : string) (s : TokenService.Service)
    (handler : HandlerFunc) (r : Request) (st : Store) :
  snd (Auth_Verify (TokenService.s_SDK s) (TokenService.getTokenFromRequest s r))
    = None ->
  panicked (trace_of (TokenService.authenticateHandlerFunc UserKey s handler r st))
  = panicked (trace_of (handler r
      (mkStore (rec st)
         (<[UserKey := fst (Auth_Verify (TokenService.s_SDK s)
                              (TokenService.getTokenFromRequest s r))]> (ctx st))))).
Proof.
  intros Hv. rewrite guard_accept_trace by exact Hv.
  cbn [panicked]. rewrite panicked_ev_handler. cbn [panicked_ev].
  now rewrite orb_false_r.
Qed.

Lemma authenticated_route_guarded (UserKey : string) (s : TokenService.Service)
    (tmpl meth : string) :
  In (tmpl, meth) authenticated_routes ->
  exists name handler,
    TokenService.endpoint UserKey s tmpl meth =
    Some (InstrumentHandlerFunc name
            (TokenService.authenticateHandlerFunc UserKey s handler)).
Proof.
  intros [H|[H|[]]]; injection H as <- <-.
  - do 2 eexists. apply endpoint_upload.
  - do 2 eexists. apply endpoint_download.
Qed.

(** C3. On an authenticated route (upload or download) a request whose
    credential fails verification is answered 401 and the wrapped handler
    is never called, so no storage call is made; when verification
    succeeds the handler is called exactly once: the one handler node of
    the trace holds the steps of the handler run on the request, in the
    context with the verified user, and the state the guard returns is the
    state that run returns.  The first part states this of the guard around
    any handler and from any state, the second of the registered endpoint
    serving a request into a new recorder. *)
Theorem guard_rejects_or_invokes_once (UserKey : string)
    (s : TokenService.Service) (tmpl meth : string) (r : Request) :
  In (tmpl, meth) authenticated_routes ->
  let tok := TokenService.getTokenFromRequest s r in
  let v := Auth_Verify (TokenService.s_SDK s) tok in
  (forall (handler : HandlerFunc) (st : Store),
      let out := TokenService.authenticateHandlerFunc UserKey s handler r st in
      let st' := mkStore (rec st) (<[UserKey := fst v]> (ctx st)) in
      match snd v with
      | Some _ =>
          handler_calls (trace_of out) = O /\
          storage_calls (trace_of out) = O /\
          out = (emit (EvVerify tok) ;;
                 http_Error (StatusText StatusUnauthorized) StatusUnauthorized) st
      | None =>
          handler_calls (trace_of out) = 1%nat /\
          trace_of out =
            [EvVerify tok; EvContextSet UserKey (fst v);
             EvHandler (trace_of (handler r st'))] /\
          store_of out = store_of (handler r st')
      end) /\
  (exists (name : string) (handler : HandlerFunc),
      ((tmpl = "/upload/{path:.*}" /\ name = "/upload" /\
        handler = TokenService.s_Upload UserKey s) \/
       (tmpl = "/download/{path:.*}" /\ name = "/download" /\
        handler = TokenService.s_Download UserKey s)) /\
      TokenService.endpoint UserKey s tmpl meth =
        Some (InstrumentHandlerFunc name
                (TokenService.authenticateHandlerFunc UserKey s handler)) /\
      forall c : gmap string User,
        let out := InstrumentHandlerFunc name
                     (TokenService.authenticateHandlerFunc UserKey s handler)
                     r (mkStore NewRecorder c) in
        let st' := mkStore NewRecorder (<[UserKey := fst v]> c) in
        match snd v with
        | Some _ =>
            status_of out = 401 /\
            body_of out = bytes_of ("Unauthorized" +:+ String "010"%char "") /\
            handler_calls (trace_of out) = O /\
            storage_calls (trace_of out) = O
        | None =>
            handler_calls (trace_of out) = 1%nat /\
            store_of out = store_of (handler r st') /\
            trace_of out =
              [EvVerify tok; EvContextSet UserKey (fst v);
               EvHandler (trace_of (handler r st'))] ++
              (if panicked (trace_of (handler r st')) then []
               else [EvMetric name])
        end).
Proof.
  intros Hroute tok v. split.
  - intros handler st out st'. subst out st'.
    destruct (snd v) as [e|] eqn:Hv.
    + destruct (guard_reject_trace UserKey s handler r st e Hv)
        as (t & Ht & Hh & _ & Hs & _).
      rewrite Ht. repeat split.
      * exact Hh.
      * exact Hs.
      * apply (guard_reject UserKey s handler r st e Hv).
    + rewrite guard_accept_trace, guard_accept_store by exact Hv.
      repeat split.
  - assert (Hreg : exists (name : string) (handler : HandlerFunc),
      ((tmpl = "/upload/{path:.*}" /\ name = "/upload" /\
        handler = TokenService.s_Upload UserKey s) \/
       (tmpl = "/download/{path:.*}" /\ name = "/download" /\
        handler = TokenService.s_Download UserKey s)) /\
      TokenService.endpoint UserKey s tmpl meth =
        Some (InstrumentHandlerFunc name
                (TokenService.authenticateHandlerFunc UserKey s handler))).
    { destruct Hroute as [H|[H|[]]]; injection H as <- <-.
      - exists "/upload", (TokenService.s_Upload UserKey s).
        split; [left; repeat split | apply endpoint_upload].
      - exists "/download", (TokenService.s_Download UserKey s).
        split; [right; repeat split | apply endpoint_download]. }
    destruct Hreg as (name & handler & Hwhich & Hep).
    exists name, handler. split; [exact Hwhich|]. split; [exact Hep|].
    intros c out st'. subst out st'. rewrite instrument_run.
    unfold status_of, body_of. rewrite !store_of_run, !trace_of_run.
    destruct (snd v) as [e|] eqn:Hv.
    + rewrite handler_calls_metric, storage_calls_metric.
      destruct (guard_reject_fresh UserKey s handler r c e Hv) as (Hc & Hb & _).
      destruct (guard_reject_trace UserKey s handler r (mkStore NewRecorder c) e Hv)
        as (t & Ht & Hh & _ & Hs & _).
      rewrite Ht. repeat split; assumption.
    + rewrite handler_calls_metric.
      rewrite guard_accept_panicked by exact Hv.
      rewrite guard_accept_trace, guard_accept_store by exact Hv.
      repeat split.
Qed.

Lemma guard_rejects_or_invokes_once_witness :
  (let out := TokenService.authenticateHandlerFunc Fixtures.userKey
                (Fixtures.svc EOF None) (fun _ => Write (bytes_of "ok"))
                (Fixtures.getBlob Fixtures.validToken) fresh in
   handler_calls (trace_of out) = 1%nat /\
   trace_of out =
     [EvVerify Fixtures.validToken;
      EvContextSet Fixtures.userKey Fixtures.user;
      EvHandler [EvWriteHeader 200; EvWrite (bytes_of "ok")]] /\
   body_of out = bytes_of "ok") /\
  (forall c : gmap string User,
      let out := InstrumentHandlerFunc "/upload"
                   (TokenService.authenticateHandlerFunc Fixtures.userKey
                      (Fixtures.svc EOF None)
                      (TokenService.s_Upload Fixtures.userKey (Fixtures.svc EOF None)))
                   (Fixtures.putBlob "fake" []) (mkStore NewRecorder c) in
      status_of out = 401 /\
      body_of out = bytes_of ("Unauthorized" +:+ String "010"%char "") /\
      handler_calls (trace_of out) = O /\
      storage_calls (trace_of out) = O).
Proof.
  split.
  - destruct (proj1 (guard_rejects_or_invokes_once Fixtures.userKey
                       (Fixtures.svc EOF None) "/download/{path:.*}" "GET"
                       (Fixtures.getBlob Fixtures.validToken)
                       (or_intror (or_introl eq_refl)))
                (fun _ => Write (bytes_of "ok")) fresh)
      as (Hcalls & Htrace & Hstore).
    split; [exact Hcalls|]. split; [exact Htrace|].
    unfold body_of. rewrite Hstore. reflexivity.
  - destruct (proj2 (guard_rejects_or_invokes_once Fixtures.userKey
                       (Fixtures.svc EOF None) "/upload/{path:.*}" "PUT"
                       (Fixtures.putBlob "fake" []) (or_introl eq_refl)))
      as (name & handler & [(_ & -> & ->)|(Ht & _)] & _ & Hrun);
      [exact Hrun | discriminate Ht].
Defined.

(** C6. In every run of the authentication guard the identity is attached
    to the request context if and only if the verifier returned no error:
    after a failed verification the context is as it was and no attachment
    step occurs; after a successful one the single attachment step follows
    the verification, and the handler starts in the context that holds the
    verified user. *)
Theorem identity_attached_iff_verified (UserKey : string)
    (s : TokenService.Service) (handler : HandlerFunc) (r : Request) (st : Store) :
  let tok := TokenService.getTokenFromRequest s r in
  let v := Auth_Verify (TokenService.s_SDK s) tok in
  let out := TokenService.authenticateHandlerFunc UserKey s handler r st in
  (attachments (trace_of out) = 1%nat <-> snd v = None) /\
  (attachments (trace_of out) = O <-> snd v <> None) /\
  match snd v with
  | Some _ =>
      ctx (store_of out) = ctx st /\
      EvContextSet UserKey (fst v) ∉ trace_of out
  | None =>
      let st' := mkStore (rec st) (<[UserKey := fst v]> (ctx st)) in
      ctx st' !! UserKey = Some (fst v) /\
      trace_of out =
        [EvVerify tok; EvContextSet UserKey (fst v);
         EvHandler (trace_of (handler r st'))] /\
      store_of out = store_of (handler r st')
  end.
Proof.
  intros tok v out. subst out.
  destruct (snd v) as [e|] eqn:Hv.
  - pose proof (guard_reject UserKey s handler r st e Hv) as Hrun.
    rewrite Hrun.
    destruct st as [[code [|] body] c]; simpl;
      (split; [split; [discriminate | intros H; discriminate H]|];
       split; [split; [intros _; discriminate | reflexivity]|];
       split; [reflexivity|];
       intros Hin; repeat (apply elem_of_cons in Hin as [Hin|Hin];
                           [discriminate Hin|]);
       apply elem_of_nil in Hin; exact Hin).
  - rewrite guard_accept_trace, guard_accept_store by exact Hv.
    split; [split; reflexivity|].
    split; [split; [intros H; discriminate H | intros H; contradiction]|].
    split; [apply lookup_insert_eq|]. split; reflexivity.
Qed.

(* ===================================================================== *)
(** ** The download handler *)
(* ===================================================================== *)

Lemma io_Copy_run (rd : Reader) : forall st : Store,
  wroteHeader (rec st) = true ->
  io_Copy rd st =
  (copy_result rd,
   mkStore (mkRecorder (Code (rec st)) true (RespBody (rec st) ++ reader_bytes rd))
           (ctx st),
   copy_trace rd).
Proof.
  induction rd as [|c rest IH|e]; intros [[code wh body] cx] Hw;
    simpl in Hw; subst wh.
  - simpl. unfold bind, emit, ret. simpl. now rewrite app_nil_r.
  - simpl. unfold bind, emit, Write. simpl.
    rewrite IH by reflexivity. simpl. now rewrite <- app_assoc.
  - simpl. unfold bind, emit, ret. simpl. now rewrite app_nil_r.
Qed.

Lemma copy_trace_no_status (rd : Reader) (code : Z) :
  EvWriteHeader code ∉ copy_trace rd.
Proof.
  induction rd as [|c rest IH|e]; simpl; intros Hin.
  - apply elem_of_cons in Hin as [Hin|Hin]; [discriminate|].
    now apply elem_of_nil in Hin.
  - apply elem_of_cons in Hin as [Hin|Hin]; [discriminate|].
    apply elem_of_cons in Hin as [Hin|Hin]; [discriminate|].
    now apply IH.
  - apply elem_of_cons in Hin as [Hin|Hin]; [discriminate|].
    now apply elem_of_nil in Hin.
Qed.

Lemma writes_copy_trace (rd : Reader) : writes (copy_trace rd) = reader_chunks rd.
Proof. induction rd as [|c rest IH|e]; simpl; [reflexivity| |reflexivity]. now rewrite IH. Qed.

Lemma flatten_copy_trace (rd : Reader) : flatten (copy_trace rd) = copy_trace rd.
Proof. induction rd as [|c rest IH|e]; simpl; [reflexivity| |reflexivity]. now rewrite IH. Qed.

Lemma concat_reader_chunks (rd : Reader) :
  concat (reader_chunks rd) = reader_bytes rd.
Proof. induction rd as [|c rest IH|e]; simpl; [reflexivity| |reflexivity]. now rewrite IH. Qed.

Section DownloadRuns.

Variable UserKey : string.
Variable dc : DataController.
Variable r : Request.
Variable u : User.
Variable c : gmap string User.
Hypothesis Hid : c !! UserKey = Some u.

(** Step 1: the request to the collaborator fails. *)
Lemma Download_failed (w : ResponseRecorder) (rd : Reader) (e : error) :
  wroteHeader w = false ->
  DownloadBLOB dc u (mux_Vars r "path") = (rd, Some e) ->
  Download UserKey dc r (mkStore w c) =
  (tt,
   mkStore (mkRecorder (translate e) true
              (RespBody w ++
               bytes_of (StatusText (translate e) +:+ String "010"%char "")))
           c,
   [EvDownloadBLOB u (mux_Vars r "path"); EvWriteHeader (translate e);
    EvWrite (bytes_of (StatusText (translate e) +:+ String "010"%char ""))]).
Proof.
  intros Hw Hdl. destruct w as [code wh body]. simpl in Hw. subst wh.
  unfold Download, context_Get, call_DownloadBLOB, bind, emit, ret. simpl.
  rewrite Hid, Hdl. reflexivity.
Qed.

(** Step 2: the first read fails. *)
Lemma Download_first_read_fails (w : ResponseRecorder) (e : error) :
  wroteHeader w = false ->
  DownloadBLOB dc u (mux_Vars r "path") = (Broken e, None) ->
  Download UserKey dc r (mkStore w c) =
  (tt,
   mkStore (mkRecorder StatusInternalServerError true
              (RespBody w ++
               bytes_of ("Internal Server Error" +:+ String "010"%char "")))
           c,
   [EvDownloadBLOB u (mux_Vars r "path"); EvRead ReadFailed;
    EvWriteHeader StatusInternalServerError;
    EvWrite (bytes_of ("Internal Server Error" +:+ String "010"%char ""))]).
Proof.
  intros Hw Hdl. destruct w as [code wh body]. simpl in Hw. subst wh.
  unfold Download, context_Get, call_DownloadBLOB, bind, emit, ret. simpl.
  rewrite Hid, Hdl. reflexivity.
Qed.

(** Step 3: the first chunk is there, the rest is copied. *)
Lemma Download_streams (w : ResponseRecorder) (ch : list byte) (rest : Reader) :
  wroteHeader w = false ->
  DownloadBLOB dc u (mux_Vars r "path") = (Chunk ch rest, None) ->
  Download UserKey dc r (mkStore w c) =
  (tt,
   mkStore (mkRecorder StatusOK true (RespBody w ++ ch ++ reader_bytes rest)) c,
   [EvDownloadBLOB u (mux_Vars r "path"); EvRead (ReadChunk (length ch));
    EvWriteHeader StatusOK; EvWrite ch] ++ copy_trace rest).
Proof.
  intros Hw Hdl. destruct w as [code wh body]. simpl in Hw. subst wh.
  unfold Download, context_Get, call_DownloadBLOB, bind, emit, ret. simpl.
  rewrite Hid, Hdl. simpl.
  unfold WriteHeader, Write. simpl.
  rewrite io_Copy_run by reflexivity. simpl.
  now rewrite <- app_assoc, app_nil_r.
Qed.

Lemma Download_empty (w : ResponseRecorder) :
  wroteHeader w = false ->
  DownloadBLOB dc u (mux_Vars r "path") = (EOF, None) ->
  Download UserKey dc r (mkStore w c) =
  (tt, mkStore w c, [EvDownloadBLOB u (mux_Vars r "path"); EvRead ReadEOF]).
Proof.
  intros Hw Hdl. destruct w as [code wh body]. simpl in Hw. subst wh.
  unfold Download, context_Get, call_DownloadBLOB, bind, emit, ret. simpl.
  rewrite Hid, Hdl. reflexivity.
Qed.

End DownloadRuns.

(** The steps of [Download], whatever the state it starts from. *)
Lemma Download_trace (UserKey : string) (dc : DataController) (r : Request)
    (st : Store) :
  trace_of (Download UserKey dc r st) =
  match ctx st !! UserKey with
  | None => [EvPanic]
  | Some u =>
      let out := DownloadBLOB dc u (mux_Vars r "path") in
      EvDownloadBLOB u (mux_Vars r "path") ::
      match snd out with
      | Some e =>
          [EvWriteHeader (translate e);
           EvWrite (bytes_of (StatusText (translate e) +:+ String "010"%char ""))]
      | None =>
          match fst out with
          | Broken _ =>
              [EvRead ReadFailed; EvWriteHeader StatusInternalServerError;
               EvWrite (bytes_of ("Internal Server Error" +:+ String "010"%char ""))]
          | EOF => [EvRead ReadEOF]
          | Chunk ch rest =>
              [EvRead (ReadChunk (length ch)); EvWriteHeader StatusOK; EvWrite ch]
              ++ copy_trace rest
          end
      end
  end.
Proof.
  destruct st as [[code wh body] cx].
  unfold Download, context_Get, call_DownloadBLOB, bind, emit, ret, trace_of.
  simpl. destruct (cx !! UserKey) as [u|]; [|reflexivity].
  destruct (DownloadBLOB dc u (mux_Vars r "path")) as [rd [e|]]; simpl.
  - destruct wh; reflexivity.
  - destruct rd as [|ch rest|e].
    + destruct wh; reflexivity.
    + unfold WriteHeader, Write. simpl.
      destruct wh; simpl; rewrite io_Copy_run by reflexivity; simpl;
        now rewrite app_nil_r.
    + destruct wh; reflexivity.
Qed.

Lemma translate_not_success (e : error) : translate e <> StatusOK.
Proof. unfold translate. destruct (kind e); discriminate. Qed.

Lemma Download_success_only_after_read (UserKey : string) (dc : DataController)
    (r : Request) (st : Store) :
  success_only_after_read (trace_of (Download UserKey dc r st)).
Proof.
  rewrite Download_trace. intros i Hi.
  destruct (ctx st !! UserKey) as [u|].
  2:{ destruct i as [|i]; simpl in Hi; [discriminate|].
      rewrite lookup_nil in Hi. discriminate. }
  cbv zeta in Hi.
  destruct (DownloadBLOB dc u (mux_Vars r "path")) as [rd [e|]]; simpl in Hi.
  - destruct i as [|[|[|i]]]; simpl in Hi; try discriminate.
    injection Hi as Hi. now apply translate_not_success in Hi.
  - destruct rd as [|ch rest|e].
    + destruct i as [|[|i]]; simpl in Hi; discriminate.
    + destruct i as [|[|[|[|i]]]]; simpl in Hi; try discriminate.
      * exists 1%nat, (length ch). split; [lia | reflexivity].
      * exfalso. apply (copy_trace_no_status rest StatusOK).
        eapply list_elem_of_lookup_2. exact Hi.
    + destruct i as [|[|[|[|i]]]]; simpl in Hi; discriminate.
Qed.

(** An endpoint behind the guard, served for a verified credential by a
    handler that returns. *)
Lemma guarded_endpoint_run (UserKey : string) (s : TokenService.Service)
    (name : string) (handler : HandlerFunc) (r : Request) (w : ResponseRecorder)
    (c : gmap string User) (u : User) :
  Auth_Verify (TokenService.s_SDK s) (TokenService.getTokenFromRequest s r)
    = (u, None) ->
  let inner := handler r (mkStore w (<[UserKey := u]> c)) in
  panicked (trace_of inner) = false ->
  InstrumentHandlerFunc name
    (TokenService.authenticateHandlerFunc UserKey s handler) r (mkStore w c) =
  (tt, store_of inner,
   [EvVerify (TokenService.getTokenFromRequest s r); EvContextSet UserKey u;
    EvHandler (trace_of inner); EvMetric name]).
Proof.
  intros Hv inner Hnp. rewrite instrument_run.
  rewrite guard_accept_panicked by (rewrite Hv; reflexivity).
  rewrite guard_accept_trace, guard_accept_store by (rewrite Hv; reflexivity).
  rewrite Hv. cbn [fst rec ctx]. fold inner. rewrite Hnp. reflexivity.
Qed.

Lemma copy_trace_no_panic (rd : Reader) : panicked (copy_trace rd) = false.
Proof. induction rd as [|c rest IH|e]; simpl; auto. Qed.

Lemma flatten_guarded (tok key : string) (u : User) (inner : list Event)
    (name : string) :
  flatten [EvVerify tok; EvContextSet key u; EvHandler inner; EvMetric name] =
  EvVerify tok :: EvContextSet key u :: flatten inner ++ [EvMetric name].
Proof.
  cbn [flatten app]. rewrite flatten_ev_handler. reflexivity.
Qed.



Lemma writes_app (t1 t2 : list Event) : writes (t1 ++ t2) = writes t1 ++ writes t2.
Proof.
  induction t1 as [|e t1 IH]; [reflexivity|].
  destruct e; simpl; rewrite ?IH; reflexivity.
Qed.

(** C1. A download whose collaborator hands out a stream without an error
    of its own, and whose first read of that stream fails, is answered 500
    with the fixed reason: the only status line of the response is the 500
    one and no success status is written at any step.  In every run of the
    handler, a success status is committed only after a read of the stream
    that delivered a chunk. *)
Theorem download_first_read_failure (UserKey : string)
    (s : TokenService.Service) (r : Request) (c : gmap string User)
    (u : User) (e : error) :
  Auth_Verify (TokenService.s_SDK s) (TokenService.getTokenFromRequest s r)
    = (u, None) ->
  DownloadBLOB (TokenService.s_DataController s) u (mux_Vars r "path")
    = (Broken e, None) ->
  (exists h : HandlerFunc,
      TokenService.endpoint UserKey s "/download/{path:.*}" "GET" = Some h /\
      let out := h r (mkStore NewRecorder c) in
      status_of out = 500 /\
      body_of out = bytes_of ("Internal Server Error" +:+ String "010"%char "") /\
      count is_success_status (flatten (trace_of out)) = O /\
      responses (flatten (trace_of out)) =
        [EvWriteHeader 500;
         EvWrite (bytes_of ("Internal Server Error" +:+ String "010"%char ""))]) /\
  (forall (dc : DataController) (r' : Request) (st : Store),
      success_only_after_read (trace_of (Download UserKey dc r' st))).
Proof.
  intros Hv Hdl. split; [|intros; apply Download_success_only_after_read].
  eexists. split; [apply endpoint_download|].
  intros out. subst out.
  pose proof (Download_first_read_fails UserKey (TokenService.s_DataController s) r u
                (<[UserKey := u]> c) (lookup_insert_eq _ _ _)
                NewRecorder e eq_refl Hdl) as Hrun.
  rewrite (guarded_endpoint_run UserKey s _ _ r NewRecorder c u Hv)
    by (unfold TokenService.s_Download; rewrite Hrun; reflexivity).
  unfold TokenService.s_Download. rewrite Hrun.
  unfold status_of, body_of, store_of, trace_of. cbn [fst snd rec Code RespBody].
  rewrite flatten_guarded.
  repeat split.
Qed.

Lemma download_first_read_failure_witness :
  exists h : HandlerFunc,
    TokenService.endpoint Fixtures.userKey (Fixtures.svc errorReader None)
      "/download/{path:.*}" "GET" = Some h /\
    status_of (h (Fixtures.getBlob Fixtures.validToken) (mkStore NewRecorder ∅))
      = 500 /\
    count is_success_status
      (flatten (trace_of (h (Fixtures.getBlob Fixtures.validToken)
                            (mkStore NewRecorder ∅)))) = O.
Proof.
  destruct (proj1 (download_first_read_failure Fixtures.userKey
                     (Fixtures.svc errorReader None)
                     (Fixtures.getBlob Fixtures.validToken) ∅
                     Fixtures.user (errors_New "test error")
                     eq_refl eq_refl))
    as (h & Hep & Hst & _ & Hno & _).
  exists h. split; [exact Hep|]. split; [exact Hst | exact Hno].
Defined.

(** C2. A download whose storage request fails is answered through the
    error translation, once and before anything else is written: the
    response consists of one status line, 404 for the kind [NotFound] and
    500 for every other error, followed by the fixed reason of that status;
    the body is the same for every cause. *)
Theorem download_failure_translated (UserKey : string)
    (s : TokenService.Service) (r : Request) (c : gmap string User)
    (u : User) (rd : Reader) (e : error) :
  Auth_Verify (TokenService.s_SDK s) (TokenService.getTokenFromRequest s r)
    = (u, None) ->
  DownloadBLOB (TokenService.s_DataController s) u (mux_Vars r "path")
    = (rd, Some e) ->
  exists h : HandlerFunc,
    TokenService.endpoint UserKey s "/download/{path:.*}" "GET" = Some h /\
    let out := h r (mkStore NewRecorder c) in
    match kind e with
    | NotFound =>
        status_of out = 404 /\
        body_of out = bytes_of ("Not Found" +:+ String "010"%char "")
    | Other =>
        status_of out = 500 /\
        body_of out = bytes_of ("Internal Server Error" +:+ String "010"%char "")
    end /\
    responses (flatten (trace_of out)) =
      [EvWriteHeader (status_of out); EvWrite (body_of out)] /\
    count is_status (flatten (trace_of out)) = 1%nat /\
    storage_calls (trace_of out) = 1%nat.
Proof.
  intros Hv Hdl.
  eexists. split; [apply endpoint_download|].
  intros out. subst out.
  pose proof (Download_failed UserKey (TokenService.s_DataController s) r u
                (<[UserKey := u]> c) (lookup_insert_eq _ _ _)
                NewRecorder rd e eq_refl Hdl) as Hrun.
  rewrite (guarded_endpoint_run UserKey s _ _ r NewRecorder c u Hv)
    by (unfold TokenService.s_Download; rewrite Hrun; reflexivity).
  unfold TokenService.s_Download. rewrite Hrun.
  unfold status_of, body_of, store_of, trace_of, storage_calls.
  cbn [fst snd rec Code RespBody].
  rewrite flatten_guarded.
  unfold translate. destruct (kind e); repeat split.
Qed.

Lemma download_failure_translated_witness :
  (exists h : HandlerFunc,
      TokenService.endpoint Fixtures.userKey
        (Fixtures.svc (strings_NewReader "1") (Some (codes_NewErr_NotFound "")))
        "/download/{path:.*}" "GET" = Some h /\
      status_of (h (Fixtures.getBlob Fixtures.validToken) (mkStore NewRecorder ∅))
        = 404) /\
  (exists h : HandlerFunc,
      TokenService.endpoint Fixtures.userKey
        (Fixtures.svc (strings_NewReader "1") (Some (errors_New "some error")))
        "/download/{path:.*}" "GET" = Some h /\
      status_of (h (Fixtures.getBlob Fixtures.validToken) (mkStore NewRecorder ∅))
        = 500 /\
      body_of (h (Fixtures.getBlob Fixtures.validToken) (mkStore NewRecorder ∅))
        = bytes_of ("Internal Server Error" +:+ String "010"%char "")).
Proof.
  split.
  - destruct (download_failure_translated Fixtures.userKey
                (Fixtures.svc (strings_NewReader "1")
                   (Some (codes_NewErr_NotFound "")))
                (Fixtures.getBlob Fixtures.validToken) ∅ Fixtures.user
                (strings_NewReader "1") (codes_NewErr_NotFound "")
                eq_refl eq_refl)
      as (h & Hep & (Hst & _) & _).
    exists h. split; [exact Hep | exact Hst].
  - destruct (download_failure_translated Fixtures.userKey
                (Fixtures.svc (strings_NewReader "1")
                   (Some (errors_New "some error")))
                (Fixtures.getBlob Fixtures.validToken) ∅ Fixtures.user
                (strings_NewReader "1") (errors_New "some error")
                eq_refl eq_refl)
      as (h & Hep & (Hst & Hb) & _).
    exists h. split; [exact Hep|]. split; [exact Hst | exact Hb].
Defined.

(** C4. A download with a valid credential, whose collaborator returns
    without error a stream that ends cleanly, is answered 200 with the
    bytes of the stream as body: the writes to the response are the chunks
    of the stream, each once and in order.  For the stream of the bytes
    ["1"] the body is exactly ["1"]. *)
Theorem download_streams_body (UserKey : string)
    (s : TokenService.Service) (r : Request) (c : gmap string User)
    (u : User) (rd : Reader) :
  Auth_Verify (TokenService.s_SDK s) (TokenService.getTokenFromRequest s r)
    = (u, None) ->
  DownloadBLOB (TokenService.s_DataController s) u (mux_Vars r "path")
    = (rd, None) ->
  reader_clean rd = true ->
  exists h : HandlerFunc,
    TokenService.endpoint UserKey s "/download/{path:.*}" "GET" = Some h /\
    let out := h r (mkStore NewRecorder c) in
    status_of out = 200 /\
    body_of out = reader_bytes rd /\
    writes (flatten (trace_of out)) = reader_chunks rd /\
    (reader_bytes rd = bytes_of "1" -> body_of out = bytes_of "1").
Proof.
  intros Hv Hdl Hclean.
  eexists. split; [apply endpoint_download|].
  intros out. subst out.
  destruct rd as [|ch rest|e]; [| |discriminate Hclean].
  - pose proof (Download_empty UserKey (TokenService.s_DataController s) r u
                (<[UserKey := u]> c) (lookup_insert_eq _ _ _)
                  NewRecorder eq_refl Hdl) as Hrun.
    rewrite (guarded_endpoint_run UserKey s _ _ r NewRecorder c u Hv)
      by (unfold TokenService.s_Download; rewrite Hrun; reflexivity).
    unfold TokenService.s_Download. rewrite Hrun.
    unfold status_of, body_of, store_of, trace_of.
    cbn [fst snd rec Code RespBody]. rewrite flatten_guarded.
    repeat split. intros H. exact H.
  - pose proof (Download_streams UserKey (TokenService.s_DataController s) r u
                (<[UserKey := u]> c) (lookup_insert_eq _ _ _)
                  NewRecorder ch rest eq_refl Hdl) as Hrun.
    rewrite (guarded_endpoint_run UserKey s _ _ r NewRecorder c u Hv)
      by (unfold TokenService.s_Download; rewrite Hrun; unfold trace_of;
          cbn [snd]; rewrite panicked_app, copy_trace_no_panic; reflexivity).
    unfold TokenService.s_Download. rewrite Hrun.
    unfold status_of, body_of, store_of, trace_of.
    cbn [fst snd rec Code RespBody]. rewrite flatten_guarded.
    split; [reflexivity|]. split; [reflexivity|].
    split; [|intros H; exact H].
    cbn [flatten flatten_ev app writes].
    rewrite writes_app, flatten_copy_trace, writes_copy_trace.
    cbn [writes reader_chunks]. now rewrite app_nil_r.
Qed.

Lemma download_streams_body_witness :
  exists h : HandlerFunc,
    TokenService.endpoint Fixtures.userKey
      (Fixtures.svc (strings_NewReader "1") None)
      "/download/{path:.*}" "GET" = Some h /\
    status_of (h (Fixtures.getBlob Fixtures.validToken) (mkStore NewRecorder ∅))
      = 200 /\
    body_of (h (Fixtures.getBlob Fixtures.validToken) (mkStore NewRecorder ∅))
      = bytes_of "1".
Proof.
  destruct (download_streams_body Fixtures.userKey
              (Fixtures.svc (strings_NewReader "1") None)
              (Fixtures.getBlob Fixtures.validToken) ∅ Fixtures.user
              (strings_NewReader "1") eq_refl eq_refl eq_refl)
    as (h & Hep & Hst & Hb & _).
  exists h. split; [exact Hep|]. split; [exact Hst | exact Hb].
Defined.

(* ===================================================================== *)
(** ** The upload handler *)
(* ===================================================================== *)

(** The steps of [Upload], whatever the state it starts from. *)
Lemma Upload_trace (UserKey : string) (dc : DataController) (N : Z)
    (r : Request) (st : Store) :
  trace_of (Upload UserKey dc N r st) =
  match ctx st !! UserKey with
  | None => [EvPanic]
  | Some u =>
      if (N <? ContentLength r) || (N <? Z.of_nat (length (Body r))) then
        [EvWriteHeader StatusRequestEntityTooLarge;
         EvWrite (bytes_of ("Request Entity Too Large" +:+ String "010"%char ""))]
      else
        let data := take (Z.to_nat N) (Body r) in
        EvBodyRead (length data) ::
        EvUploadBLOB u (mux_Vars r "path") data ::
        match UploadBLOB dc u (mux_Vars r "path") data with
        | Some e =>
            [EvWriteHeader (translate e);
             EvWrite (bytes_of (StatusText (translate e) +:+ String "010"%char ""))]
        | None => [EvWriteHeader StatusOK]
        end
  end.
Proof.
  destruct st as [[code wh body] cx].
  unfold Upload, context_Get, readBody, call_UploadBLOB, bind, emit, ret, trace_of.
  simpl. destruct (cx !! UserKey) as [u|]; [|reflexivity].
  destruct ((N <? ContentLength r) || (N <? Z.of_nat (length (Body r)))).
  - destruct wh; reflexivity.
  - simpl.
    destruct (UploadBLOB dc u (mux_Vars r "path") (take (Z.to_nat N) (Body r)));
      destruct wh; reflexivity.
Qed.

(** A rejected upload, served into a recorder without a status yet. *)
Lemma Upload_rejects (UserKey : string) (dc : DataController) (N : Z)
    (r : Request) (u : User) (w : ResponseRecorder) (c : gmap string User) :
  wroteHeader w = false ->
  c !! UserKey = Some u ->
  (N <? ContentLength r) || (N <? Z.of_nat (length (Body r))) = true ->
  Upload UserKey dc N r (mkStore w c) =
  (tt,
   mkStore (mkRecorder StatusRequestEntityTooLarge true
              (RespBody w ++
               bytes_of ("Request Entity Too Large" +:+ String "010"%char "")))
           c,
   [EvWriteHeader StatusRequestEntityTooLarge;
    EvWrite (bytes_of ("Request Entity Too Large" +:+ String "010"%char ""))]).
Proof.
  intros Hw Hid Hover. destruct w as [code wh body]. simpl in Hw. subst wh.
  unfold Upload, context_Get, bind, emit, ret. simpl.
  rewrite Hid, Hover. reflexivity.
Qed.

(** C5. An upload whose body is longer than the configured maximum, or
    whose declared length is, is answered 413 without a byte of the body
    being read and without a call to the storage collaborator; and no run
    of the handler reads more bytes of the body than the maximum. *)
Theorem upload_over_limit (UserKey : string) (s : TokenService.Service)
    (r : Request) (c : gmap string User) (u : User) :
  let N := TokenService.RequestBodyMaxSize
             (TokenService.General (TokenService.s_Config s)) in
  Auth_Verify (TokenService.s_SDK s) (TokenService.getTokenFromRequest s r)
    = (u, None) ->
  N < ContentLength r \/ N < Z.of_nat (length (Body r)) ->
  (exists h : HandlerFunc,
      TokenService.endpoint UserKey s "/upload/{path:.*}" "PUT" = Some h /\
      let out := h r (mkStore NewRecorder c) in
      status_of out = 413 /\
      body_of out = bytes_of ("Request Entity Too Large" +:+ String "010"%char "") /\
      storage_calls (trace_of out) = O /\
      body_bytes_read (trace_of out) = O) /\
  (forall (dc : DataController) (M : Z) (r' : Request) (st : Store),
      (body_bytes_read (trace_of (Upload UserKey dc M r' st)) <= Z.to_nat M)%nat).
Proof.
  intros N Hv Hover. split.
  - eexists. split; [apply endpoint_upload|].
    intros out. subst out.
    assert (Hrun := Upload_rejects UserKey (TokenService.s_DataController s) N r u
                      NewRecorder (<[UserKey := u]> c) eq_refl
                      (lookup_insert_eq _ _ _)).
    rewrite orb_true_iff, !Z.ltb_lt in Hrun. specialize (Hrun Hover).
    rewrite (guarded_endpoint_run UserKey s _ _ r NewRecorder c u Hv)
      by (unfold TokenService.s_Upload; fold N; rewrite Hrun; reflexivity).
    unfold TokenService.s_Upload. fold N. rewrite Hrun.
    unfold status_of, body_of, store_of, trace_of, storage_calls, body_bytes_read.
    cbn [fst snd rec Code RespBody]. rewrite flatten_guarded.
    repeat split.
  - intros dc M r' st. rewrite Upload_trace. unfold body_bytes_read.
    destruct (ctx st !! UserKey) as [u'|]; [|simpl; lia].
    destruct ((M <? ContentLength r') || (M <? Z.of_nat (length (Body r'))));
      [simpl; lia|].
    cbv zeta.
    destruct (UploadBLOB dc u' (mux_Vars r' "path") (take (Z.to_nat M) (Body r')));
      simpl; rewrite length_take; lia.
Qed.

Lemma upload_over_limit_witness :
  exists h : HandlerFunc,
    TokenService.endpoint Fixtures.userKey (Fixtures.svcLimit 4)
      "/upload/{path:.*}" "PUT" = Some h /\
    status_of (h (Fixtures.putBlob Fixtures.validToken (bytes_of "12345"))
                 (mkStore NewRecorder ∅)) = 413 /\
    storage_calls
      (trace_of (h (Fixtures.putBlob Fixtures.validToken (bytes_of "12345"))
                   (mkStore NewRecorder ∅))) = O /\
    body_bytes_read
      (trace_of (h (Fixtures.putBlob Fixtures.validToken (bytes_of "12345"))
                   (mkStore NewRecorder ∅))) = O.
Proof.
  destruct (proj1 (upload_over_limit Fixtures.userKey (Fixtures.svcLimit 4)
                     (Fixtures.putBlob Fixtures.validToken (bytes_of "12345")) ∅
                     Fixtures.user eq_refl (or_intror eq_refl)))
    as (h & Hep & Hst & _ & Hs & Hb).
  exists h. split; [exact Hep|]. split; [exact Hst|]. split; [exact Hs | exact Hb].
Defined.

(* ===================================================================== *)
(** ** The test suite, replayed *)
(* ===================================================================== *)

Example TestDownload :
  Fixtures.serve (Fixtures.svc (strings_NewReader "1") None) "/download/{path:.*}" "GET"
        (Fixtures.getBlob Fixtures.validToken)
  = Some (200, bytes_of "1").
Proof. vm_compute. reflexivity. Qed.

Example TestDownload_withCodeNotFound :
  fst <$> Fixtures.serve (Fixtures.svc (strings_NewReader "1")
                   (Some (codes_NewErr_NotFound "")))
                "/download/{path:.*}" "GET" (Fixtures.getBlob Fixtures.validToken)
  = Some 404.
Proof. vm_compute. reflexivity. Qed.

Example TestDownload_withError :
  fst <$> Fixtures.serve (Fixtures.svc (strings_NewReader "1")
                   (Some (errors_New "some error")))
                "/download/{path:.*}" "GET" (Fixtures.getBlob Fixtures.validToken)
  = Some 500.
Proof. vm_compute. reflexivity. Qed.

Example TestDownload_withErrorCopying :
  fst <$> Fixtures.serve (Fixtures.svc errorReader None)
                "/download/{path:.*}" "GET" (Fixtures.getBlob Fixtures.validToken)
  = Some 500.
Proof. vm_compute. reflexivity. Qed.

Example TestAuthenticateHandlerFunc_withBadToken :
  fst <$> Fixtures.serve (Fixtures.svc EOF None) "/upload/{path:.*}" "PUT"
                (Fixtures.putBlob "fake" [])
  = Some 401.
Proof. vm_compute. reflexivity. Qed.

Example TestMetrics :
  fst <$> Fixtures.serve (Fixtures.svc EOF None) "/metrics" "GET"
                (mkRequest "GET" ∅ ∅ ∅ 0 [])
  = Some 200.
Proof. vm_compute. reflexivity. Qed.

Example TestPrefix :
  BaseURLService.Prefix (Fixtures.baseSvc "") = "/" /\
  BaseURLService.Prefix (Fixtures.baseSvc "/clawio/v1/data") = "/clawio/v1/data".
Proof. split; reflexivity. Qed.

(* ===================================================================== *)
(** ** Construction: [New] and [getDataController] *)
(* ===================================================================== *)

Section ConstructorFacts.

Context {FS : Type}.
Variable os_MkdirAll : string -> Z -> FS -> FS * option error.
Variable sdk_New : ServiceEndpoints -> SDK.
Variable NewSimpleDataController : SimpleDataControllerOptions -> DataController.
Variable simple_New : BaseURLServiceNew.simple_Options -> DataController.

Lemma getDataController_cases (d : TokenService.DataControllerConfig) (fs : FS) :
  let opts := mkSimpleDataControllerOptions
                (TokenService.SimpleDataDir d) (TokenService.SimpleTempDir d)
                (TokenService.SimpleChecksum d)
                (TokenService.SimpleVerifyClientChecksum d) in
  let r1 := os_MkdirAll (TokenService.SimpleDataDir d) perm0755 fs in
  let r2 := os_MkdirAll (TokenService.SimpleTempDir d) perm0755 (fst r1) in
  TokenServiceNew.getDataController os_MkdirAll NewSimpleDataController d fs =
  match snd r1, snd r2 with
  | Some e, _ => ((None, Some e), fst r1)
  | None, Some e => ((None, Some e), fst r2)
  | None, None => ((Some (NewSimpleDataController opts), None), fst r2)
  end.
Proof.
  intros opts r1 r2. unfold TokenServiceNew.getDataController. simpl.
  fold r1. destruct (snd r1); [reflexivity|]. fold r2.
  destruct (snd r2); reflexivity.
Qed.

Lemma BaseURL_getDataController_cases (d : TokenService.DataControllerConfig)
    (fs : FS) :
  let opts := BaseURLServiceNew.mk_simple_Options
                (TokenService.SimpleDataDir d) (TokenService.SimpleTempDir d)
                (TokenService.SimpleChecksum d)
                (TokenService.SimpleVerifyClientChecksum d) in
  let r1 := os_MkdirAll (TokenService.SimpleDataDir d) perm0755 fs in
  let r2 := os_MkdirAll (TokenService.SimpleTempDir d) perm0755 (fst r1) in
  BaseURLServiceNew.getDataController os_MkdirAll simple_New d fs =
  match snd r1, snd r2 with
  | Some e, _ => ((None, Some e), fst r1)
  | None, Some e => ((None, Some e), fst r2)
  | None, None => ((Some (simple_New opts), None), fst r2)
  end.
Proof.
  intros opts r1 r2. unfold BaseURLServiceNew.getDataController. simpl.
  fold r1. destruct (snd r1); [reflexivity|]. fold r2.
  destruct (snd r2); reflexivity.
Qed.

End ConstructorFacts.

Section ConstructorTheorems.

Context {FS : Type}.
Variable os_MkdirAll : string -> Z -> FS -> FS * option error.
Variable sdk_New : ServiceEndpoints -> SDK.
Variable NewSimpleDataController : SimpleDataControllerOptions -> DataController.
Variable simple_New : BaseURLServiceNew.simple_Options -> DataController.

Lemma New_complete (srv : option config_Server) (g : TokenService.GeneralConfig)
    (d : TokenService.DataControllerConfig) (fs : FS) :
  let r1 := os_MkdirAll (TokenService.SimpleDataDir d) perm0755 fs in
  let r2 := os_MkdirAll (TokenService.SimpleTempDir d) perm0755 (fst r1) in
  TokenServiceNew.New os_MkdirAll sdk_New NewSimpleDataController
    (Some (TokenServiceNew.mkConfigRef srv (Some g) (Some d))) fs =
  match snd r1, snd r2 with
  | Some e, _ => ((None, Some e), fst r1)
  | None, Some e => ((None, Some e), fst r2)
  | None, None =>
      ((Some (TokenService.mkService (TokenService.mkConfig g d)
                (sdk_New (mkServiceEndpoints
                            (TokenService.AuthenticationServiceBaseURL g)))
                (NewSimpleDataController
                   (mkSimpleDataControllerOptions
                      (TokenService.SimpleDataDir d) (TokenService.SimpleTempDir d)
                      (TokenService.SimpleChecksum d)
                      (TokenService.SimpleVerifyClientChecksum d)))),
        None), fst r2)
  end.
Proof.
  intros r1 r2. unfold TokenServiceNew.New. cbn [TokenServiceNew.cfg_General
    TokenServiceNew.cfg_DataController].
  rewrite getDataController_cases. fold r1. fold r2.
  destruct (snd r1); [reflexivity|]. destruct (snd r2); reflexivity.
Qed.

Lemma BaseURL_New_complete (srv : option config_Server)
    (g : BaseURLService.GeneralConfig) (d : TokenService.DataControllerConfig)
    (fs : FS) :
  let r1 := os_MkdirAll (TokenService.SimpleDataDir d) perm0755 fs in
  let r2 := os_MkdirAll (TokenService.SimpleTempDir d) perm0755 (fst r1) in
  BaseURLServiceNew.New os_MkdirAll sdk_New simple_New
    (Some (BaseURLServiceNew.mkConfigRef srv (Some g) (Some d))) fs =
  match snd r1, snd r2 with
  | Some e, _ => ((None, Some e), fst r1)
  | None, Some e => ((None, Some e), fst r2)
  | None, None =>
      ((Some (BaseURLService.mkService (BaseURLService.mkConfig g d)
                (sdk_New (mkServiceEndpoints
                            (BaseURLService.AuthenticationServiceBaseURL g)))
                (simple_New
                   (BaseURLServiceNew.mk_simple_Options
                      (TokenService.SimpleDataDir d) (TokenService.SimpleTempDir d)
                      (TokenService.SimpleChecksum d)
                      (TokenService.SimpleVerifyClientChecksum d)))),
        None), fst r2)
  end.
Proof.
  intros r1 r2. unfold BaseURLServiceNew.New. cbn [BaseURLServiceNew.cfg_General
    BaseURLServiceNew.cfg_DataController].
  rewrite BaseURL_getDataController_cases. fold r1. fold r2.
  destruct (snd r1); [reflexivity|]. destruct (snd r2); reflexivity.
Qed.

(** X1. [New] returns either a service or an error, never both and never
    neither, in both facades. *)
Theorem New_service_xor_error :
  (forall (cfg : option TokenServiceNew.ConfigRef) (fs : FS),
      let out := fst (TokenServiceNew.New os_MkdirAll sdk_New
                        NewSimpleDataController cfg fs) in
      is_Some (fst out) <-> snd out = None) /\
  (forall (cfg : option BaseURLServiceNew.ConfigRef) (fs : FS),
      let out := fst (BaseURLServiceNew.New os_MkdirAll sdk_New
                        simple_New cfg fs) in
      is_Some (fst out) <-> snd out = None).
Proof.
  split.
  - intros [[srv [g|] [d|]]|] fs out; subst out;
      try (simpl; split; [intros [x Hx]; discriminate Hx | discriminate]).
    rewrite New_complete.
    destruct (snd (os_MkdirAll _ _ fs)); simpl;
      [split; [intros [x Hx]; discriminate Hx | discriminate]|].
    destruct (snd (os_MkdirAll _ _ _)); simpl;
      [split; [intros [x Hx]; discriminate Hx | discriminate]|].
    split; [reflexivity | intros _; eexists; reflexivity].
  - intros [[srv [g|] [d|]]|] fs out; subst out;
      try (simpl; split; [intros [x Hx]; discriminate Hx | discriminate]).
    rewrite BaseURL_New_complete.
    destruct (snd (os_MkdirAll _ _ fs)); simpl;
      [split; [intros [x Hx]; discriminate Hx | discriminate]|].
    destruct (snd (os_MkdirAll _ _ _)); simpl;
      [split; [intros [x Hx]; discriminate Hx | discriminate]|].
    split; [reflexivity | intros _; eexists; reflexivity].
Qed.

(** X2. [New] of [service.go] returns a service exactly when the config
    and its [General] and [DataController] parts are all present and both
    directories can be made, the data directory first and the temp
    directory in the file system that results; the service then holds the
    given configuration, the SDK built for the configured authentication
    URL and the data controller built from the four [Simple...] settings. *)
Theorem New_succeeds_iff (cfg : option TokenServiceNew.ConfigRef) (fs fs' : FS)
    (svc : TokenService.Service) :
  TokenServiceNew.New os_MkdirAll sdk_New NewSimpleDataController cfg fs
    = ((Some svc, None), fs') <->
  exists (srv : option config_Server) (g : TokenService.GeneralConfig)
         (d : TokenService.DataControllerConfig),
    let r1 := os_MkdirAll (TokenService.SimpleDataDir d) perm0755 fs in
    let r2 := os_MkdirAll (TokenService.SimpleTempDir d) perm0755 (fst r1) in
    cfg = Some (TokenServiceNew.mkConfigRef srv (Some g) (Some d)) /\
    snd r1 = None /\ snd r2 = None /\ fs' = fst r2 /\
    svc = TokenService.mkService (TokenService.mkConfig g d)
            (sdk_New (mkServiceEndpoints
                        (TokenService.AuthenticationServiceBaseURL g)))
            (NewSimpleDataController
               (mkSimpleDataControllerOptions
                  (TokenService.SimpleDataDir d) (TokenService.SimpleTempDir d)
                  (TokenService.SimpleChecksum d)
                  (TokenService.SimpleVerifyClientChecksum d))).
Proof.
  split.
  - destruct cfg as [[srv [g|] [d|]]|]; try (simpl; discriminate).
    rewrite New_complete. intros H. exists srv, g, d. cbv zeta.
    destruct (snd (os_MkdirAll (TokenService.SimpleDataDir d) perm0755 fs));
      [discriminate H|].
    destruct (snd (os_MkdirAll (TokenService.SimpleTempDir d) perm0755 _));
      [discriminate H|].
    injection H as <- <-. repeat split.
  - intros (srv & g & d & Hcfg & H1 & H2 & Hfs & Hsvc). subst cfg.
    rewrite New_complete. rewrite H1, H2. subst fs' svc. reflexivity.
Qed.

(** X3. With a nil config, or a config whose [General] or [DataController]
    part is nil, [New] returns no service and the error that names the
    first missing part ([General] before [DataController]); the file
    system is left as it was, in both facades. *)
Theorem New_incomplete_config (fs : FS) :
  (forall cfg : option TokenServiceNew.ConfigRef,
      cfg = None \/
      (exists c, cfg = Some c /\
                 (TokenServiceNew.cfg_General c = None \/
                  TokenServiceNew.cfg_DataController c = None)) ->
      TokenServiceNew.New os_MkdirAll sdk_New NewSimpleDataController cfg fs =
      ((None,
        Some (errors_New
                match cfg with
                | None => "config is nil"
                | Some c =>
                    match TokenServiceNew.cfg_General c with
                    | None => "config.General is nil"
                    | Some _ => "config.DataController is  nil"
                    end
                end)), fs)) /\
  (forall cfg : option BaseURLServiceNew.ConfigRef,
      cfg = None \/
      (exists c, cfg = Some c /\
                 (BaseURLServiceNew.cfg_General c = None \/
                  BaseURLServiceNew.cfg_DataController c = None)) ->
      BaseURLServiceNew.New os_MkdirAll sdk_New simple_New cfg fs =
      ((None,
        Some (errors_New
                match cfg with
                | None => "config is nil"
                | Some c =>
                    match BaseURLServiceNew.cfg_General c with
                    | None => "config.General is nil"
                    | Some _ => "config.DataController is  nil"
                    end
                end)), fs)).
Proof.
  split.
  - intros cfg [->|(c & -> & H)]; [reflexivity|].
    destruct c as [srv [g|] [d|]]; simpl in *; try reflexivity.
    destruct H as [H|H]; discriminate H.
  - intros cfg [->|(c & -> & H)]; [reflexivity|].
    destruct c as [srv [g|] [d|]]; simpl in *; try reflexivity.
    destruct H as [H|H]; discriminate H.
Qed.

(** X4. With a complete config, a failure to make the data directory is
    returned by [New] as it is, with no service, and the file system is
    the one that failed call left: the temp directory is not attempted.
    When the data directory is made and the temp directory fails, the error
    is the second one and the file system keeps the effect of the first
    call: the data directory is not removed. *)
Theorem New_directory_failure (srv : option config_Server)
    (g : TokenService.GeneralConfig) (d : TokenService.DataControllerConfig)
    (fs : FS) (e : error) :
  let r1 := os_MkdirAll (TokenService.SimpleDataDir d) perm0755 fs in
  let r2 := os_MkdirAll (TokenService.SimpleTempDir d) perm0755 (fst r1) in
  let out := TokenServiceNew.New os_MkdirAll sdk_New NewSimpleDataController
               (Some (TokenServiceNew.mkConfigRef srv (Some g) (Some d))) fs in
  snd r1 = Some e \/ (snd r1 = None /\ snd r2 = Some e) ->
  fst out = (None, Some e) /\
  snd out = match snd r1 with Some _ => fst r1 | None => fst r2 end.
Proof.
  intros r1 r2 out H. subst out. rewrite New_complete. fold r1. fold r2.
  destruct H as [H|[H1 H2]].
  - rewrite H. split; reflexivity.
  - rewrite H1, H2. split; reflexivity.
Qed.

(** X5. [New] never consults the [Type] of the data controller config nor
    the [Server] part: two complete configs that differ in these only give
    the same error, the same file system, the same SDK and the same data
    controller. *)
Theorem New_ignores_Type_and_Server (srv1 srv2 : option config_Server)
    (g : TokenService.GeneralConfig) (type1 type2 dataDir tempDir checksum : string)
    (verify : bool) (fs : FS) :
  let d1 := TokenService.mkDataControllerConfig type1 dataDir tempDir checksum verify in
  let d2 := TokenService.mkDataControllerConfig type2 dataDir tempDir checksum verify in
  let out1 := TokenServiceNew.New os_MkdirAll sdk_New NewSimpleDataController
                (Some (TokenServiceNew.mkConfigRef srv1 (Some g) (Some d1))) fs in
  let out2 := TokenServiceNew.New os_MkdirAll sdk_New NewSimpleDataController
                (Some (TokenServiceNew.mkConfigRef srv2 (Some g) (Some d2))) fs in
  snd (fst out1) = snd (fst out2) /\
  snd out1 = snd out2 /\
  TokenService.s_SDK <$> fst (fst out1) = TokenService.s_SDK <$> fst (fst out2) /\
  TokenService.s_DataController <$> fst (fst out1) =
    TokenService.s_DataController <$> fst (fst out2).
Proof.
  intros d1 d2 out1 out2. subst out1 out2. rewrite !New_complete.
  subst d1 d2. cbn [TokenService.SimpleDataDir TokenService.SimpleTempDir
    TokenService.SimpleChecksum TokenService.SimpleVerifyClientChecksum].
  destruct (snd (os_MkdirAll dataDir perm0755 fs)); [repeat split|].
  destruct (snd (os_MkdirAll tempDir perm0755 _)); repeat split.
Qed.

End ConstructorTheorems.

Lemma New_succeeds_iff_witness :
  exists svc : TokenService.Service,
    TokenServiceNew.New NewFixtures.mkdirAll NewFixtures.sdkNew
      NewFixtures.newController
      (Some (TokenServiceNew.mkConfigRef (Some mk_config_Server)
               (Some NewFixtures.general) (Some (NewFixtures.dcc "/data" "/tmp"))))
      [] = ((Some svc, None), ["/tmp"; "/data"]) /\
    TokenService.RequestBodyMaxSize
      (TokenService.General (TokenService.s_Config svc)) = 1024.
Proof.
  eexists. split.
  - apply (proj2 (New_succeeds_iff NewFixtures.mkdirAll NewFixtures.sdkNew
                    NewFixtures.newController _ [] ["/tmp"; "/data"] _)).
    exists (Some mk_config_Server), NewFixtures.general,
      (NewFixtures.dcc "/data" "/tmp").
    repeat split.
  - reflexivity.
Defined.

Lemma New_incomplete_config_witness :
  TokenServiceNew.New NewFixtures.mkdirAll NewFixtures.sdkNew
    NewFixtures.newController
    (Some (TokenServiceNew.mkConfigRef None None None)) ["/srv"] =
  ((None, Some (errors_New "config.General is nil")), ["/srv"]).
Proof.
  apply (proj1 (New_incomplete_config NewFixtures.mkdirAll NewFixtures.sdkNew
                  NewFixtures.newController
                  (fun _ => Fixtures.mockDataController EOF None) ["/srv"])).
  right. eexists. split; [reflexivity | left; reflexivity].
Defined.

Lemma New_directory_failure_witness :
  (let out := TokenServiceNew.New NewFixtures.mkdirAll NewFixtures.sdkNew
                NewFixtures.newController
                (Some (TokenServiceNew.mkConfigRef None (Some NewFixtures.general)
                         (Some (NewFixtures.dcc "/i/cannot/write/here" "/tmp")))) [] in
   fst out = (None, Some (errors_New "permission denied")) /\ snd out = []) /\
  (let out := TokenServiceNew.New NewFixtures.mkdirAll NewFixtures.sdkNew
                NewFixtures.newController
                (Some (TokenServiceNew.mkConfigRef None (Some NewFixtures.general)
                         (Some (NewFixtures.dcc "/tmp" "/i/cannot/write/here")))) [] in
   fst out = (None, Some (errors_New "permission denied")) /\ snd out = ["/tmp"]).
Proof.
  split.
  - apply (New_directory_failure NewFixtures.mkdirAll NewFixtures.sdkNew
             NewFixtures.newController None NewFixtures.general
             (NewFixtures.dcc "/i/cannot/write/here" "/tmp") []
             (errors_New "permission denied")).
    left. reflexivity.
  - apply (New_directory_failure NewFixtures.mkdirAll NewFixtures.sdkNew
             NewFixtures.newController None NewFixtures.general
             (NewFixtures.dcc "/tmp" "/i/cannot/write/here") []
             (errors_New "permission denied")).
    right. split; reflexivity.
Defined.

(* ===================================================================== *)
(** ** The route table *)
(* ===================================================================== *)

Lemma route_table_lookup (h1 h2 h3 : HandlerFunc) (t m : string) :
  is_Some
    ((<["/metrics" := {[ "GET" := h1 ]}]>
      (<["/upload/{path:.*}" := {[ "PUT" := h2 ]}]>
      (<["/download/{path:.*}" := {[ "GET" := h3 ]}]>
         (∅ : gmap string (gmap string HandlerFunc))))) !! t
     ≫= (fun tbl : gmap string HandlerFunc => tbl !! m)) <->
  In (t, m) registered_routes.
Proof.
  unfold registered_routes, authenticated_routes. simpl.
  rewrite lookup_insert. case_decide as H1.
  { subst t. simpl. rewrite lookup_singleton. case_decide as Hm.
    - subst m. split; [intros _; left; reflexivity | intros _; eexists; reflexivity].
    - split; [intros [x Hx]; discriminate Hx|].
      intros [H|[H|[H|[]]]]; injection H as H; try discriminate; congruence. }
  rewrite lookup_insert. case_decide as H2.
  { subst t. simpl. rewrite lookup_singleton. case_decide as Hm.
    - subst m. split; [intros _; right; left; reflexivity
                      | intros _; eexists; reflexivity].
    - split; [intros [x Hx]; discriminate Hx|].
      intros [H|[H|[H|[]]]]; injection H as H; try discriminate; congruence. }
  rewrite lookup_insert. case_decide as H3.
  { subst t. simpl. rewrite lookup_singleton. case_decide as Hm.
    - subst m. split; [intros _; right; right; left; reflexivity
                      | intros _; eexists; reflexivity].
    - split; [intros [x Hx]; discriminate Hx|].
      intros [H|[H|[H|[]]]]; injection H as H; try discriminate; congruence. }
  rewrite lookup_empty. simpl.
  split; [intros [x Hx]; discriminate Hx|].
  intros [H|[H|[H|[]]]]; injection H as H; congruence.
Qed.

(** X6. [Endpoints] registers three routes and no other, in both facades:
    a handler is found for a path template and a method exactly when the
    pair is GET [/metrics], PUT [/upload/{path:.*}] or GET
    [/download/{path:.*}]; any other method on these templates, and any
    other template, has no handler. *)
Theorem Endpoints_route_table (UserKey : string)
    (JWTHandlerFunc : string -> string -> HandlerFunc -> HandlerFunc)
    (t m : string) :
  (forall s : TokenService.Service,
      is_Some (TokenService.endpoint UserKey s t m) <->
      In (t, m) registered_routes) /\
  (forall s : BaseURLService.Service,
      is_Some (BaseURL_endpoint UserKey JWTHandlerFunc s t m) <->
      In (t, m) registered_routes).
Proof.
  split; intros s.
  - unfold TokenService.endpoint, TokenService.Endpoints.
    apply route_table_lookup.
  - unfold BaseURL_endpoint, BaseURLService.Endpoints.
    apply route_table_lookup.
Qed.

(** X7. [Prefix] is never the empty string, in both facades. *)
Theorem Prefix_never_empty :
  (forall s : TokenService.Service, TokenService.Prefix s <> "") /\
  (forall s : BaseURLService.Service, BaseURLService.Prefix s <> "").
Proof.
  split; intros s.
  - discriminate.
  - unfold BaseURLService.Prefix.
    destruct (String.eqb_spec
                (BaseURLService.BaseURL
                   (BaseURLService.General (BaseURLService.s_Config s))) "")
      as [E|N]; [discriminate | exact N].
Qed.

(* ===================================================================== *)
(** ** Where the guard looks for the credential *)
(* ===================================================================== *)

Lemma Header_Get_Set_other (h : gmap string (list string)) (k v : string) :
  CanonicalMIMEHeaderKey k <> "Token" ->
  Header_Get (Header_Set h k v) "token" = Header_Get h "token".
Proof.
  intros Hk. unfold Header_Get, Header_Set. rewrite canonical_token.
  rewrite lookup_insert_ne by exact Hk. reflexivity.
Qed.

Lemma guard_trace_head (UserKey : string) (s : TokenService.Service)
    (handler : HandlerFunc) (r : Request) (st : Store) :
  exists t : list Event,
    trace_of (TokenService.authenticateHandlerFunc UserKey s handler r st) =
      EvVerify (TokenService.getTokenFromRequest s r) :: t /\
    count is_verify t = O /\
    handler_calls t =
      match snd (Auth_Verify (TokenService.s_SDK s)
                   (TokenService.getTokenFromRequest s r)) with
      | None => 1%nat
      | Some _ => O
      end.
Proof.
  destruct (snd (Auth_Verify (TokenService.s_SDK s)
                   (TokenService.getTokenFromRequest s r))) as [e|] eqn:Hv.
  - rewrite (guard_reject UserKey s handler r st e Hv).
    destruct st as [[code [|] body] c];
      (eexists; split; [reflexivity | split; reflexivity]).
  - rewrite guard_accept_trace by exact Hv.
    eexists. split; [reflexivity | split; reflexivity].
Qed.

(** X8. A request that carries no [token] header and no [token] query
    parameter is not turned away by the guard on its own: the verifier is
    asked once, about the empty token, and its answer alone decides whether
    the handler is called. *)
Theorem guard_without_token (UserKey : string) (s : TokenService.Service)
    (handler : HandlerFunc) (r : Request) (st : Store) :
  Header r !! "Token" = None ->
  Query r !! "token" = None ->
  TokenService.getTokenFromRequest s r = "" /\
  exists t : list Event,
    trace_of (TokenService.authenticateHandlerFunc UserKey s handler r st) =
      EvVerify "" :: t /\
    count is_verify t = O /\
    handler_calls t =
      match snd (Auth_Verify (TokenService.s_SDK s) "") with
      | None => 1%nat
      | Some _ => O
      end.
Proof.
  intros Hh Hq.
  assert (Htok : TokenService.getTokenFromRequest s r = "").
  { unfold TokenService.getTokenFromRequest, Header_Get, Values_Get.
    rewrite canonical_token, Hh, Hq. reflexivity. }
  split; [exact Htok|].
  destruct (guard_trace_head UserKey s handler r st) as (t & Ht & Hv & Hc).
  rewrite Htok in Ht, Hc. exists t. repeat split; assumption.
Qed.

Lemma guard_without_token_witness :
  exists t : list Event,
    trace_of (TokenService.authenticateHandlerFunc Fixtures.userKey
                (Fixtures.svc EOF None) (fun _ => ret tt)
                bareGet fresh) = EvVerify "" :: t /\
    handler_calls t = O.
Proof.
  destruct (proj2 (guard_without_token Fixtures.userKey (Fixtures.svc EOF None)
                     (fun _ => ret tt) bareGet fresh
                     ltac:(vm_compute; reflexivity)
                     ltac:(vm_compute; reflexivity)))
    as (t & Ht & _ & Hc).
  exists t. split; [exact Ht | exact Hc].
Defined.

(** X9. A non-empty [token] header hides the query parameter: when the
    verifier refuses the header's token the request is answered 401 and the
    handler is not called, whatever the query string holds, a token the
    verifier would accept included. *)
Theorem header_token_shadows_query (UserKey : string) (s : TokenService.Service)
    (handler : HandlerFunc) (r : Request) (c : gmap string User)
    (t : string) (e : error) (q : gmap string (list string)) :
  Header_Get (Header r) "token" = t ->
  t <> "" ->
  snd (Auth_Verify (TokenService.s_SDK s) t) = Some e ->
  let out := TokenService.authenticateHandlerFunc UserKey s handler
               (with_Query r q) (mkStore NewRecorder c) in
  TokenService.getTokenFromRequest s (with_Query r q) = t /\
  status_of out = 401 /\
  handler_calls (trace_of out) = O /\
  storage_calls (trace_of out) = O.
Proof.
  intros Hh Hne Hv out.
  assert (Htok : TokenService.getTokenFromRequest s (with_Query r q) = t).
  { unfold TokenService.getTokenFromRequest. cbn [with_Query Header Query].
    rewrite Hh. destruct (String.eqb_spec t "") as [E|N];
      [contradiction | reflexivity]. }
  split; [exact Htok|]. subst out.
  assert (Hv' : snd (Auth_Verify (TokenService.s_SDK s)
                       (TokenService.getTokenFromRequest s (with_Query r q)))
                = Some e) by (rewrite Htok; exact Hv).
  destruct (guard_reject_fresh UserKey s handler (with_Query r q) c e Hv')
    as (Hst & _ & _).
  destruct (guard_reject_trace UserKey s handler (with_Query r q)
              (mkStore NewRecorder c) e Hv') as (tr & Ht & Hh' & _ & Hs & _).
  split; [exact Hst|]. rewrite Ht. split; [exact Hh' | exact Hs].
Qed.

Lemma header_token_shadows_query_witness :
  snd (Auth_Verify (TokenService.s_SDK (Fixtures.svc EOF None))
         Fixtures.validToken) = None /\
  status_of (TokenService.authenticateHandlerFunc Fixtures.userKey
               (Fixtures.svc EOF None) (fun _ => ret tt)
               (with_Query (Fixtures.getBlob "fake")
                  {[ "token" := [Fixtures.validToken] ]})
               (mkStore NewRecorder ∅)) = 401.
Proof.
  split; [reflexivity|].
  destruct (header_token_shadows_query Fixtures.userKey (Fixtures.svc EOF None)
              (fun _ => ret tt) (Fixtures.getBlob "fake") ∅ "fake"
              (errors_New "invalid token")
              {[ "token" := [Fixtures.validToken] ]}
              eq_refl ltac:(discriminate) eq_refl)
    as (_ & Hst & _).
  exact Hst.
Defined.

(** X10. Headers other than [Token] play no part in the credential: setting
    a header whose canonical name is not [Token] leaves the extracted token
    as it was.  In particular the [Authorization] header that the test
    helper [setToken] fills is not read: the request keeps the token it had
    before, while the bearer credential sits in [Authorization]. *)
Theorem other_headers_ignored (s : TokenService.Service) (r : Request)
    (k v : string) :
  CanonicalMIMEHeaderKey k <> "Token" ->
  TokenService.getTokenFromRequest s (with_Header r (Header_Set (Header r) k v))
    = TokenService.getTokenFromRequest s r /\
  (forall jwtToken : string,
      TokenService.getTokenFromRequest s (setToken jwtToken r)
        = TokenService.getTokenFromRequest s r /\
      Header_Get (Header (setToken jwtToken r)) "Authorization"
        = "bearer " +:+ jwtToken).
Proof.
  intros Hk. split.
  - unfold TokenService.getTokenFromRequest. cbn [with_Header Header Query].
    rewrite Header_Get_Set_other by exact Hk. reflexivity.
  - intros jwtToken. split.
    + unfold TokenService.getTokenFromRequest, setToken.
      cbn [with_Header Header Query].
      rewrite Header_Get_Set_other by discriminate. reflexivity.
    + unfold setToken, Header_Get, Header_Set. cbn [with_Header Header].
      rewrite lookup_insert_eq. reflexivity.
Qed.

Lemma other_headers_ignored_witness :
  TokenService.getTokenFromRequest (Fixtures.svc EOF None)
    (setToken "abc" bareGet) = "".
Proof.
  rewrite (proj1 (proj2 (other_headers_ignored (Fixtures.svc EOF None)
                           bareGet "X-Other" "v"
                           ltac:(discriminate)) "abc")).
  reflexivity.
Defined.

(* ===================================================================== *)
(** ** Instrumentation around the guard *)
(* ===================================================================== *)

Lemma guard_trace_no_metric (UserKey : string) (s : TokenService.Service)
    (handler : HandlerFunc) (r : Request) (st : Store) :
  count is_metric
    (trace_of (TokenService.authenticateHandlerFunc UserKey s handler r st)) = O.
Proof.
  destruct (snd (Auth_Verify (TokenService.s_SDK s)
                   (TokenService.getTokenFromRequest s r))) as [e|] eqn:Hv.
  - rewrite (guard_reject UserKey s handler r st e Hv).
    destruct st as [[code [|] body] c]; reflexivity.
  - rewrite guard_accept_trace by exact Hv. reflexivity.
Qed.

(** X11. On the upload and download routes the instrumentation wraps the
    guard and records when the guarded handler returns.  A refused request
    is recorded: its steps end with one observation under the route name.
    An admitted request whose handler returns is recorded once, at the
    end; one whose handler panics is not recorded.  In each case the
    verifier is asked exactly once, nothing before the end is an
    observation, and the instrumentation leaves the response and the
    context as the guard returned them. *)
Theorem instrumentation_records_returning_attempts (UserKey : string)
    (s : TokenService.Service) (name : string) (handler : HandlerFunc)
    (r : Request) (st : Store) :
  let v := Auth_Verify (TokenService.s_SDK s)
             (TokenService.getTokenFromRequest s r) in
  let guarded := TokenService.authenticateHandlerFunc UserKey s handler in
  let st' := mkStore (rec st) (<[UserKey := fst v]> (ctx st)) in
  (TokenService.endpoint UserKey s "/upload/{path:.*}" "PUT" =
     Some (InstrumentHandlerFunc "/upload"
             (TokenService.authenticateHandlerFunc UserKey s
                (TokenService.s_Upload UserKey s))) /\
   TokenService.endpoint UserKey s "/download/{path:.*}" "GET" =
     Some (InstrumentHandlerFunc "/download"
             (TokenService.authenticateHandlerFunc UserKey s
                (TokenService.s_Download UserKey s)))) /\
  count is_metric (trace_of (guarded r st)) = O /\
  count is_verify (trace_of (guarded r st)) = 1%nat /\
  store_of (InstrumentHandlerFunc name guarded r st) = store_of (guarded r st) /\
  trace_of (InstrumentHandlerFunc name guarded r st) =
    trace_of (guarded r st) ++
    match snd v with
    | Some _ => [EvMetric name]
    | None =>
        if panicked (trace_of (handler r st')) then [] else [EvMetric name]
    end.
Proof.
  intros v guarded st'. subst guarded st'.
  split; [split; [apply endpoint_upload | apply endpoint_download]|].
  split; [apply guard_trace_no_metric|].
  split.
  { destruct (guard_trace_head UserKey s handler r st) as (t & Ht & Hv & _).
    rewrite Ht. simpl. rewrite Hv. reflexivity. }
  rewrite instrument_run. rewrite store_of_run, trace_of_run.
  split; [reflexivity|].
  destruct (snd v) as [e|] eqn:Hv.
  - rewrite (guard_reject_no_panic UserKey s handler r st e Hv). reflexivity.
  - rewrite guard_accept_panicked by exact Hv. reflexivity.
Qed.
